(** * The pagination view of the Miyo bot

    A shallow embedding of [src/pagination.py], [src/main.py] and
    [src/menu.py]: the [PaginationView] class (a [discord.ui.View] driving a
    [menus.PageSource]), the [GuildMenuPageSource] formatter and the
    [servers] command that feeds it.

    Python objects are mutated in place and every coroutine may raise, so the
    methods live in a state-and-exception monad over the fields of the view.
    Calls into the chat platform (sending, editing, deleting a message) are
    recorded, in order, in the [outbox] of the session; the platform's own
    failures are outside the code and are not modelled.  [on_error], which
    only reports a failure, is left out. *)

From Stdlib Require Import Ascii ZArith Lia.
From stdpp Require Import base strings gmap list.

Local Open Scope Z_scope.

(** ** Python values *)

(** The exceptions the code raises or catches. *)
Inductive exn : Type :=
  | IndexError
  | TypeError
  | AttributeError.

(** [inl e]: the call raised [e]; [inr a]: it returned [a]. *)
Definition outcome (A : Type) : Type := (exn + A)%type.

(** A [discord.Embed], reduced to the fields the code writes. *)
Record Embed : Type := mkEmbed {
  title : string;
  description : string
}.

(** What a keyword argument of a send or an edit can hold. *)
Inductive pyval : Type :=
  | VNone
  | VStr (s : string)
  | VEmbed (e : Embed).

(** What [format_page] may hand back: [_get_kwargs_from_page] tells a dict, a
    str and an Embed apart with [isinstance] and has an [else] for the rest. *)
Inductive formatted : Type :=
  | FDict (d : gmap string pyval)
  | FStr (s : string)
  | FEmbed (e : Embed)
  | FOther.

(** Truth value of an [Optional[str]]: [None] and the empty string are false. *)
Definition truthy (content : option string) : bool :=
  match content with
  | Some s => negb (String.eqb s "")
  | None => false
  end.

(** [d.setdefault(k, x)]: writes only when the key is absent. *)
Definition setdefault (k : string) (x : pyval) (d : gmap string pyval)
  : gmap string pyval :=
  match d !! k with
  | Some _ => d
  | None => <[k := x]> d
  end.

(** The [isinstance] chain of [_get_kwargs_from_page]. *)
Definition kwargs_of (value : formatted) : gmap string pyval :=
  match value with
  | FDict d => d
  | FStr s => {[ "content" := VStr s; "embed" := VNone ]}
  | FEmbed e => {[ "embed" := VEmbed e; "content" := VNone ]}
  | FOther => ∅
  end.

(** [if content: kwargs.setdefault('content', content)] of [start]. *)
Definition with_content (content : option string) (kwargs : gmap string pyval)
  : gmap string pyval :=
  match content with
  | Some c => if truthy content then setdefault "content" (VStr c) kwargs else kwargs
  | None => kwargs
  end.

Definition nl : string := String "010"%char EmptyString.

(** ** The page source interface ([menus.PageSource])

    The view only calls these four methods (and [_prepare_once]).  A source
    without a precomputed length answers [None] to [get_max_pages]. *)
Record PageSource (page : Type) : Type := mkPageSource {
  get_max_pages : option Z;
  is_paginating : bool;
  get_page : Z -> outcome page;
  format_page : page -> outcome formatted
}.
Arguments mkPageSource {page}.
Arguments get_max_pages {page}.
Arguments is_paginating {page}.
Arguments get_page {page}.
Arguments format_page {page}.

(** ** The session *)

(** The five buttons declared with [discord.ui.button]. *)
Inductive button : Type := First | Previous | Quit | Next | Last.

#[global] Instance button_eq_dec : EqDecision button.
Proof. solve_decision. Defined.

(** The [disabled] attribute of each button object. *)
Record controls : Type := mkControls {
  first_disabled : bool;
  previous_disabled : bool;
  quit_disabled : bool;
  next_disabled : bool;
  last_disabled : bool
}.

Definition is_disabled (b : button) (c : controls) : bool :=
  match b with
  | First => first_disabled c
  | Previous => previous_disabled c
  | Quit => quit_disabled c
  | Next => next_disabled c
  | Last => last_disabled c
  end.

Definition with_disabled (b : button) (x : bool) (c : controls) : controls :=
  match b with
  | First => mkControls x (previous_disabled c) (quit_disabled c) (next_disabled c) (last_disabled c)
  | Previous => mkControls (first_disabled c) x (quit_disabled c) (next_disabled c) (last_disabled c)
  | Quit => mkControls (first_disabled c) (previous_disabled c) x (next_disabled c) (last_disabled c)
  | Next => mkControls (first_disabled c) (previous_disabled c) (quit_disabled c) x (last_disabled c)
  | Last => mkControls (first_disabled c) (previous_disabled c) (quit_disabled c) (next_disabled c) x
  end.

(** [self.interaction]: a [commands.Context] or a [discord.Interaction]. *)
Inductive origin : Type := Context | Interaction.

Record invocation : Type := mkInvocation {
  kind : origin;
  (** [author.id] of a Context, [user.id] of an Interaction *)
  invoker : Z;
  (** [channel.permissions_for(guild.me).embed_links] *)
  embed_links : bool;
  (** [response.is_done()] of an Interaction when the view is built: a
      command may have deferred or answered already *)
  deferred : bool
}.

(** The interaction a button press delivers. *)
Record press : Type := mkPress {
  (** [interaction.user], then its [id] *)
  actor : option Z;
  (** [interaction.response.is_done()] *)
  response_done : bool
}.

(** How a message leaves: [ctx.send], [interaction.response.send_message] or
    [interaction.followup.send]. *)
Inductive channel : Type := ViaSend | ViaResponse | ViaFollowup.

(** What an edit addresses: [self.message.edit] or
    [interaction.response.edit_message]. *)
Inductive target : Type := OnMessage (h : nat) | OnResponse.

(** The calls into the platform.  A view travels as the list of its attached
    buttons with their [disabled] flag at the time of the call. *)
Inductive event : Type :=
  (** [send(text, ephemeral=True)] *)
  | Notice (via : channel) (text : string)
  (** a send with the unpacked kwargs, [view=self] unless [None], and the
      [ephemeral] flag *)
  | Post (via : channel) (kwargs : gmap string pyval)
         (view : option (list (button * bool))) (ephemeral : bool)
  | Edit (on : target) (kwargs : gmap string pyval) (view : list (button * bool))
  | Defer
  | DeleteOriginal
  | PrepareOnce.

(** The attributes of a [PaginationView], the done flag of the response of
    [self.interaction], and the calls made so far.  [self.source] is fixed and
    stays outside.  A message is named by the position of its [Post] in the
    [outbox]. *)
Record session : Type := mkSession {
  check_embeds : bool;
  interaction : invocation;
  message : option nat;
  current_page : Z;
  compact : bool;
  children : list button;
  disabled : controls;
  (** set by [View.stop()] *)
  finished : bool;
  responded : bool;
  outbox : list event
}.

Definition set_message (x : option nat) (s : session) : session :=
  mkSession (check_embeds s) (interaction s) x (current_page s) (compact s)
            (children s) (disabled s) (finished s) (responded s) (outbox s).

Definition set_current_page (x : Z) (s : session) : session :=
  mkSession (check_embeds s) (interaction s) (message s) x (compact s)
            (children s) (disabled s) (finished s) (responded s) (outbox s).

Definition set_children (x : list button) (s : session) : session :=
  mkSession (check_embeds s) (interaction s) (message s) (current_page s) (compact s)
            x (disabled s) (finished s) (responded s) (outbox s).

Definition set_controls (x : controls) (s : session) : session :=
  mkSession (check_embeds s) (interaction s) (message s) (current_page s) (compact s)
            (children s) x (finished s) (responded s) (outbox s).

Definition set_finished (x : bool) (s : session) : session :=
  mkSession (check_embeds s) (interaction s) (message s) (current_page s) (compact s)
            (children s) (disabled s) x (responded s) (outbox s).

Definition set_responded (x : bool) (s : session) : session :=
  mkSession (check_embeds s) (interaction s) (message s) (current_page s) (compact s)
            (children s) (disabled s) (finished s) x (outbox s).

Definition record (e : event) (s : session) : session :=
  mkSession (check_embeds s) (interaction s) (message s) (current_page s) (compact s)
            (children s) (disabled s) (finished s) (responded s) (outbox s ++ [e]).

(** The view as the platform receives it with [view=self]: which buttons are
    attached and which of them are disabled.  The label, emoji and style of a
    button are fixed by its decorator and are not carried. *)
Definition rendered (s : session) : list (button * bool) :=
  map (fun b => (b, is_disabled b (disabled s))) (children s).

(** ** The monad of the methods

    An exception keeps the writes made before it, as in Python. *)
Definition M (A : Type) : Type := session -> outcome A * session.

Definition ret {A : Type} (a : A) : M A := fun s => (inr a, s).

Definition bind {A B : Type} (c : M A) (k : A -> M B) : M B :=
  fun s =>
    match c s with
    | (inl e, s') => (inl e, s')
    | (inr a, s') => k a s'
    end.

#[global] Instance M_ret : MRet M := @ret.
#[global] Instance M_bind : MBind M := fun A B k c => bind c k.

Definition raise {A : Type} (e : exn) : M A := fun s => (inl e, s).
Definition lift {A : Type} (r : outcome A) : M A := fun s => (r, s).
Definition get : M session := fun s => (inr s, s).
Definition modify (f : session -> session) : M unit := fun s => (inr tt, f s).
Definition emit (e : event) : M unit := modify (record e).
Definition pass : M unit := ret tt.

(** [try: c  except IndexError: pass] *)
Definition try_except_IndexError (c : M unit) : M unit :=
  fun s =>
    match c s with
    | (inl IndexError, s') => (inr tt, s')
    | r => r
    end.

(** [button.disabled = x] *)
Definition assign_disabled (b : button) (x : bool) : M unit :=
  modify (fun s => set_controls (with_disabled b x (disabled s)) s).

(** [for child in self.children: child.disabled = True]; the children are the
    button objects themselves, so the flags of the attached buttons change. *)
Fixpoint disable_all (bs : list button) : M unit :=
  match bs with
  | [] => pass
  | child :: rest => assign_disabled child true;; disable_all rest
  end.

(** The flags after [for child in children: child.disabled = True]. *)
Definition all_disabled (bs : list button) (c : controls) : controls :=
  fold_left (fun c b => with_disabled b true c) bs c.

(** A call that unpacks the kwargs next to keywords given by name gets a
    keyword twice when the dict holds one of these names; Python then raises
    [TypeError] before the callee runs. *)
Definition clashes (named : list string) (kwargs : gmap string pyval) : bool :=
  existsb (fun k => bool_decide (is_Some (kwargs !! k))) named.

(** The keywords [start] gives by name on each of its three sends. *)
Definition named_by_send (via : channel) : list string :=
  match via with
  | ViaSend => ["view"; "ephemeral"]
  | ViaResponse => ["view"; "ephemeral"]
  | ViaFollowup => ["wait"; "ephemeral"]
  end.

(** A send that carries the kwargs; answers the handle of the new message.
    Which other keywords the platform accepts is the platform's matter. *)
Definition post (via : channel) (kwargs : gmap string pyval)
                (with_view : bool) (ephemeral : bool) : M nat :=
  fun s =>
    if clashes (named_by_send via) kwargs then (inl TypeError, s)
    else
      (inr (length (outbox s)),
       record (Post via kwargs (if with_view then Some (rendered s) else None) ephemeral) s).

(** An edit with the unpacked kwargs and [view=self]. *)
Definition edit (on : target) (kwargs : gmap string pyval) : M unit :=
  fun s =>
    if clashes ["view"] kwargs then (inl TypeError, s)
    else (inr tt, record (Edit on kwargs (rendered s)) s).

(** The id [interaction_check] compares with: [self.interaction.author.id]
    for a Context, [self.interaction.user.id] otherwise. *)
Definition predicate (self : session) : Z :=
  match kind (interaction self) with
  | Context => invoker (interaction self)
  | Interaction => invoker (interaction self)
  end.

(** ** [_update_labels], once per file *)

(** [src/pagination.py], lines 64-85. *)
Module PaginationPy.
Section Labels.
Context {page : Type} (source : PageSource page).

Definition _update_labels (page_number : Z) : M unit :=
  assign_disabled First (page_number =? 0);;
  self ← get;
  if compact self then
    let max_pages := get_max_pages source in
    assign_disabled Next
      (match max_pages with
       | Some max_pages => page_number + 1 >=? max_pages
       | None => false
       end);;
    assign_disabled Previous (page_number =? 0)
  else
    assign_disabled Next false;;
    assign_disabled Previous false;;
    let max_pages := get_max_pages source in
    match max_pages with
    | Some max_pages =>
        assign_disabled Last (page_number + 1 >=? max_pages);;
        (if page_number + 1 >=? max_pages
         then assign_disabled Next true else pass);;
        (if page_number =? 0
         then assign_disabled Previous true;; assign_disabled First true
         else pass)
    | None => pass
    end.
End Labels.
End PaginationPy.

(** [src/main.py], lines 80-86.  The last line compares with [max_pages]
    without the [is not None] test of the line for Next: on [None] Python raises
    [TypeError] there. *)
Module MainPy.
Section Labels.
Context {page : Type} (source : PageSource page).

Definition _update_labels (page_number : Z) : M unit :=
  assign_disabled First (page_number =? 0);;
  let max_pages := get_max_pages source in
  assign_disabled Next
    (match max_pages with
     | Some max_pages => page_number + 1 >=? max_pages
     | None => false
     end);;
  assign_disabled Previous (page_number =? 0);;
  self ← get;
  if negb (compact self) then
    match max_pages with
    | Some max_pages => assign_disabled Last (page_number + 1 >=? max_pages)
    | None => raise TypeError
    end
  else pass.
End Labels.
End MainPy.

(** Which of the two copies of the class is meant. *)
Inductive file : Type := pagination_py | main_py.

(** ** The methods the two files share

    Apart from [_update_labels] (and the wording of two strings in [on_error])
    the class reads the same in [src/pagination.py] and [src/main.py]. *)
Section PaginationView.
Context {page : Type} (source : PageSource page) (f : file).

Definition _update_labels (page_number : Z) : M unit :=
  match f with
  | pagination_py => PaginationPy._update_labels source page_number
  | main_py => MainPy._update_labels source page_number
  end.

Definition clear_items : session -> session := set_children [].

Definition add_item (b : button) (s : session) : session :=
  set_children (children s ++ [b]) s.

Definition fill_items (self : session) : session :=
  if is_paginating source then
    let self := if negb (compact self) then add_item First self else self in
    let self := add_item Previous self in
    let self := add_item Quit self in
    let self := add_item Next self in
    if negb (compact self) then add_item Last self else self
  else self.

(** [__init__]: every button starts enabled, the default of
    [discord.ui.button]. *)
Definition PaginationView (interaction : invocation)
                          (check_embeds compact : bool) : session :=
  fill_items (clear_items
    {| check_embeds := check_embeds;
       interaction := interaction;
       message := None;
       current_page := 0;
       compact := compact;
       children := [];
       disabled := mkControls false false false false false;
       finished := false;
       responded := deferred interaction;
       outbox := [] |}).

Definition _get_kwargs_from_page (pg : page) : M (gmap string pyval) :=
  value ← lift (format_page source pg);
  mret (kwargs_of value).

Definition show_page (interaction : press) (page_number : Z) : M unit :=
  pg ← lift (get_page source page_number);
  modify (set_current_page page_number);;
  kwargs ← _get_kwargs_from_page pg;
  _update_labels page_number;;
  if decide (kwargs = ∅) then pass
  else if response_done interaction then
    self ← get;
    match message self with
    | Some h => edit (OnMessage h) kwargs
    | None => pass
    end
  else edit OnResponse kwargs.

Definition show_checked_page (interaction : press) (page_number : Z) : M unit :=
  let max_pages := get_max_pages source in
  try_except_IndexError
    match max_pages with
    | None => show_page interaction page_number
    | Some max_pages =>
        if (max_pages >? page_number) && (page_number >=? 0)
        then show_page interaction page_number
        else pass
    end.

Definition interaction_check (interaction : press) : M bool :=
  self ← get;
  let predicate := predicate self in
  match actor interaction with
  | Some id =>
      if id =? predicate then mret true
      else emit (Notice ViaResponse "This menu is not for you.");; mret false
  | None => emit (Notice ViaResponse "This menu is not for you.");; mret false
  end.

Definition on_timeout : M unit :=
  self ← get;
  match message self with
  | Some h => disable_all (children self);; edit (OnMessage h) ∅
  | None => pass
  end.

(** The body of [start] below the permission test. *)
Definition start_page (content : option string) (ephemeral : bool) : M unit :=
  emit PrepareOnce;;
  pg ← lift (get_page source 0);
  kwargs ← _get_kwargs_from_page pg;
  let kwargs := with_content content kwargs in
  _update_labels 0;;
  self ← get;
  match kind (interaction self) with
  | Interaction =>
      if negb (responded self) then
        h ← post ViaResponse kwargs true ephemeral;
        modify (set_responded true);;
        modify (set_message (Some h))
      else
        h ← post ViaFollowup kwargs false ephemeral;
        modify (set_message (Some h))
  | Context =>
      h ← post ViaSend kwargs true ephemeral;
      modify (set_message (Some h))
  end.

(** Only the Interaction branch of the permission test returns. *)
Definition start (content : option string) (ephemeral : bool) : M unit :=
  self ← get;
  if check_embeds self && negb (embed_links (interaction self)) then
    match kind (interaction self) with
    | Interaction =>
        emit (Notice ViaResponse "Missing embed permissions.");;
        modify (set_responded true)
    | Context =>
        emit (Notice ViaSend "Missing embed permissions.");;
        start_page content ephemeral
    end
  else start_page content ephemeral.

Definition go_to_first_page (interaction : press) : M unit :=
  show_page interaction 0.

Definition go_to_previous_page (interaction : press) : M unit :=
  self ← get;
  show_checked_page interaction (current_page self - 1).

(** [self.stop()] is the toolkit's [View.stop]: it marks the view finished
    and knows nothing of [self.message], which this class adds. *)
Definition stop_pages (interaction : press) : M unit :=
  emit Defer;;
  emit DeleteOriginal;;
  modify (set_finished true).

Definition go_to_next_page (interaction : press) : M unit :=
  self ← get;
  show_checked_page interaction (current_page self + 1).

Definition go_to_last_page (interaction : press) : M unit :=
  match get_max_pages source with
  | Some max_pages => show_page interaction (max_pages - 1)
  | None => raise TypeError
  end.
End PaginationView.

(** ** The list source ([menus.ListPageSource])

    [GuildMenuPageSource] inherits its paging from [menus.ListPageSource] of
    the discord-ext-menus package.  The package is not among the sources; the
    definitions below follow the class as the package has it. *)

(** Python's [l[a:b]] for a list. *)
Definition slice_index (len i : Z) : Z :=
  if i <? 0 then Z.max 0 (i + len) else Z.min i len.

Definition slice {A : Type} (l : list A) (a b : Z) : list A :=
  let len := Z.of_nat (length l) in
  let a := slice_index len a in
  let b := slice_index len b in
  take (Z.to_nat (b - a)) (drop (Z.to_nat a) l).

(** Python's [l[i]]: a negative index counts from the end, and an index
    outside the list raises [IndexError]. *)
Definition index {A : Type} (l : list A) (i : Z) : outcome A :=
  let len := Z.of_nat (length l) in
  let i := if i <? 0 then i + len else i in
  if i <? 0 then inl IndexError
  else match l !! Z.to_nat i with
       | Some x => inr x
       | None => inl IndexError
       end.

(** What [get_page] of a list source hands over: a slice of the entries, or
    one entry itself when [per_page] is 1. *)
Inductive list_page (A : Type) : Type :=
  | Slice (entries : list A)
  | Single (entry : A).
Arguments Slice {A}.
Arguments Single {A}.

Module ListPageSource.
Section Entries.
Context {entry : Type} (entries : list entry) (per_page : Z).

(** [_max_pages] as the constructor computes it: the quotient of
    [divmod(len(entries), per_page)], plus one if something is left over.
    With [per_page] 0 the constructor raises at the division and there is no
    source; every statement below takes [per_page >= 1]. *)
Definition get_max_pages : Z :=
  let pages := Z.of_nat (length entries) `div` per_page in
  let left_over := Z.of_nat (length entries) `mod` per_page in
  if left_over =? 0 then pages else pages + 1.

(** [len(self.entries) > self.per_page] *)
Definition is_paginating : bool := Z.of_nat (length entries) >? per_page.

(** With [per_page] 1 the entry at [page_number] itself, by indexing;
    otherwise the slice of [per_page] entries from [page_number * per_page],
    with no test of the range. *)
Definition get_page (page_number : Z) : outcome (list_page entry) :=
  if per_page =? 1 then
    match index entries page_number with
    | inl e => inl e
    | inr x => inr (Single x)
    end
  else
    let base := page_number * per_page in
    inr (Slice (slice entries base (base + per_page))).
End Entries.
End ListPageSource.

(** ** The guild listing *)

Record Invite : Type := mkInvite { url : string }.

Record Guild : Type := mkGuild {
  name : string;
  (** what [await guild.invites()] answers *)
  invites : list Invite
}.

(** An entry of the listing: the guild and whatever sits in [entry[1]], a
    str or [None]. *)
Definition entry : Type := (Guild * option string)%type.

(** [str(x)] inside an f-string, for a str or [None]. *)
Definition format_value (x : option string) : string :=
  match x with
  | Some s => s
  | None => "None"
  end.

(** [a or b] on strings. *)
Definition str_or (a b : string) : string :=
  if String.eqb a "" then b else a.

(** [GuildMenuPageSource] of [src/main.py], lines 199-215, and the command
    that builds its entries, lines 217-236. *)
Module GuildMenu.

Definition format_line (e : entry) : string :=
  name (fst e) +:+ ": " +:+ format_value (snd e).

(** The embed is one object, whose description every call overwrites; its
    colour and timestamp play no part here. *)
Definition format_page (entries : list entry) : Embed :=
  let entries_embed := map format_line entries in
  {| title := "Server List";
     description := str_or (String.concat (nl +:+ nl) entries_embed)
                           "No guilds were found." |}.

(** The paging is the list source's.  [format_page] loops over what
    [get_page] handed over: over the entries of a slice, or, when [per_page]
    is 1, over the two components of the one entry, where [entry[0]] on the
    guild raises [TypeError]. *)
Definition GuildMenuPageSource (data : list entry) (per_page : Z)
  : PageSource (list_page entry) :=
  mkPageSource
    (Some (ListPageSource.get_max_pages data per_page))
    (ListPageSource.is_paginating data per_page)
    (ListPageSource.get_page data per_page)
    (fun pg =>
       match pg with
       | Slice entries => inr (FEmbed (format_page entries))
       | Single _ => inl TypeError
       end).

(** The loop of [servers_command] over [bot.guilds]. *)
Definition guilds_data (guilds : list Guild) : list entry :=
  map (fun guild =>
         let invite_link :=
           match invites guild with
           | first :: _ => url first
           | [] => "No invite available"
           end in
         (guild, Some invite_link)) guilds.

(** [servers_command]: [None] when the author is not the owner (the command
    returns at once), else the session after [view.start(...)]. *)
Definition servers_command (author : Z) (can_embed : bool) (guilds : list Guild)
  : option (outcome unit * session) :=
  if negb (author =? 1169487822344962060) then None
  else
    let source := GuildMenuPageSource (guilds_data guilds) 5 in
    let ctx := {| kind := Context; invoker := author;
                  embed_links := can_embed; deferred := false |} in
    let view := PaginationView source ctx true false in
    Some (start source main_py (Some "Here are the servers I'm in:") true view).

End GuildMenu.

(** [GuildMenuPageSource.format_page] of [src/menu.py], lines 12-18.  The
    loop reads [entry[1].invite], an attribute neither a str nor [None] has,
    and the join is over [entries], the tuples, not over [entries_embed]. *)
Module MenuPy.

(** [entry[1].invite[0]]; the line built from it goes through
    [inspect.cleandoc] and is never used. *)
Definition first_invite (x : option string) : outcome string :=
  inl AttributeError.

Fixpoint entries_embed (entries : list entry) : outcome (list string) :=
  match entries with
  | [] => inr []
  | e :: rest =>
      match first_invite (snd e) with
      | inl err => inl err
      | inr invite =>
          match entries_embed rest with
          | inl err => inl err
          | inr lines => inr ((name (fst e) +:+ ": " +:+ invite) :: lines)
          end
      end
  end.

(** [str.join] over a list of tuples: [TypeError] at the first item. *)
Definition join_entries (sep : string) (entries : list entry) : outcome string :=
  match entries with
  | [] => inr ""
  | _ :: _ => inl TypeError
  end.

Definition format_page (entries : list entry) : outcome Embed :=
  match entries_embed entries with
  | inl err => inl err
  | inr _ =>
      match join_entries (nl +:+ nl) entries with
      | inl err => inl err
      | inr joined =>
          inr {| title := "Server List";
                 description := str_or joined "No guilds were found." |}
      end
  end.

End MenuPy.

(** ** Sample sessions *)

(** A source that does not know its length: three pages of text, and
    [IndexError] past them, the way a source over an iterator pages. *)
Definition lazy_source : PageSource string :=
  mkPageSource None true
    (fun n =>
       if n =? 0 then inr "one"
       else if n =? 1 then inr "two"
       else if n =? 2 then inr "three"
       else inl IndexError)
    (fun pg => inr (FStr pg)).

(** The same pages, counted. *)
Definition counted_source : PageSource string :=
  mkPageSource (Some 3) true (get_page lazy_source) (format_page lazy_source).

(** A source whose [format_page] answers [None]. *)
Definition blank_source : PageSource unit :=
  mkPageSource (Some 1) false (fun _ => inr tt) (fun _ => inr FOther).

(** One that answers a dict without a content key. *)
Definition dict_source : PageSource unit :=
  mkPageSource (Some 1) false (fun _ => inr tt)
    (fun _ => inr (FDict {[ "embed" := VNone ]})).

Definition ctx (can_embed : bool) : invocation :=
  {| kind := Context; invoker := 42; embed_links := can_embed; deferred := false |}.

Definition slash (can_embed : bool) : invocation :=
  {| kind := Interaction; invoker := 42; embed_links := can_embed; deferred := false |}.

Definition slash_deferred : invocation :=
  {| kind := Interaction; invoker := 42; embed_links := true; deferred := true |}.

Definition click (by_user : Z) : press :=
  {| actor := Some by_user; response_done := false |}.

Definition alpha : Guild := mkGuild "Alpha" [mkInvite "http://inv/1"].

(** Twelve entries, for the list source. *)
Definition twelve : list entry :=
  replicate 12 (alpha, Some "http://inv/1").

(** An invocation by a given user, and a dict that formats to a clash with
    [view=self]. *)
Definition ctx_of (user : Z) : invocation :=
  {| kind := Context; invoker := user; embed_links := true; deferred := false |}.

Definition clashing_source : PageSource unit :=
  mkPageSource (Some 1) false (fun _ => inr tt)
    (fun _ => inr (FDict {[ "view" := VNone ]})).
Definition beta : Guild := mkGuild "Beta" [].

(** ** The enablement policy, as the specification words it

    First and Previous are disabled iff the page is 0; Next, and Last where it
    exists (outside compact mode), are disabled iff the page count is known
    and the page is the last one. *)
Definition at_last_page (page_number : Z) (max_pages : option Z) : bool :=
  match max_pages with
  | Some max_pages => page_number + 1 >=? max_pages
  | None => false
  end.

Definition enablement_policy (page_number : Z) (max_pages : option Z)
                             (compact : bool) (c : controls) : Prop :=
  first_disabled c = (page_number =? 0) /\
  previous_disabled c = (page_number =? 0) /\
  next_disabled c = at_last_page page_number max_pages /\
  (compact = false -> last_disabled c = at_last_page page_number max_pages).

(** ** The setup of a view

    What [__init__] stores and no method assigns afterwards: the invoking
    interaction, the two options and the attached buttons. *)
Definition same_setup (s s' : session) : Prop :=
  interaction s' = interaction s /\
  check_embeds s' = check_embeds s /\
  compact s' = compact s /\
  children s' = children s.

Definition keeps_setup {A : Type} (c : M A) : Prop :=
  forall s, same_setup s (snd (c s)).

(** A source whose third page does not format. *)
Definition brittle_source : PageSource string :=
  mkPageSource (Some 3) true (get_page lazy_source)
    (fun pg => if String.eqb pg "three" then inl IndexError else inr (FStr pg)).

(** A source without a first page. *)
Definition empty_source : PageSource unit :=
  mkPageSource None false (fun _ => inl IndexError) (fun _ => inr FOther).

(** Whether a text holds a colon. *)
Fixpoint has_colon (t : string) : bool :=
  match t with
  | EmptyString => false
  | String c rest => Ascii.eqb c ":"%char || has_colon rest
  end.

(** ** Buttons and their callbacks *)

Section Callbacks.
Context {page : Type} (source : PageSource page) (f : file).

(** Each [discord.ui.button] decorator wraps the method that runs when that
    button is pressed. *)
Definition callback (b : button) (interaction : press) : M unit :=
  match b with
  | First => go_to_first_page source f interaction
  | Previous => go_to_previous_page source f interaction
  | Quit => stop_pages interaction
  | Next => go_to_next_page source f interaction
  | Last => go_to_last_page source f interaction
  end.

(** The session after one callback after the other, whatever each of them
    returned or raised. *)
Fixpoint pressed (presses : list (button * press)) (s : session) : session :=
  match presses with
  | [] => s
  | (b, interaction) :: rest => pressed rest (snd (callback b interaction s))
  end.
End Callbacks.

(** A relation between the session before and after that a method keeps. *)
Definition preserves {A : Type} (R : session -> session -> Prop) (c : M A) : Prop :=
  forall s, R s (snd (c s)).

(** What no page change writes: the live message, the flag of Quit and the
    finished mark. *)
Definition same_message (s s' : session) : Prop :=
  message s' = message s /\
  quit_disabled (disabled s') = quit_disabled (disabled s) /\
  finished s' = finished s.

(** The send [start] ends with: [ctx.send] for a Context, the response of an
    Interaction not answered yet, its follow-up otherwise. *)
Definition via_of (s : session) : channel :=
  match kind (interaction s) with
  | Context => ViaSend
  | Interaction => if responded s then ViaFollowup else ViaResponse
  end.

(** * Properties *)

(** ** Keyword clashes *)

Lemma clashes_false (named : list string) (kwargs : gmap string pyval) :
  clashes named kwargs = false <-> forall k, k ∈ named -> kwargs !! k = None.
Proof.
  unfold clashes. induction named as [|k named IH]; cbn [existsb].
  - split; [intros _ k Hk; inversion Hk | reflexivity].
  - rewrite orb_false_iff, IH, bool_decide_eq_false. split.
    + intros [Hk Hrest] k' Hin. apply elem_of_cons in Hin as [->|Hin]; [|auto].
      destruct (kwargs !! k) eqn:Hlook; [|reflexivity]. exfalso. apply Hk. eauto.
    + intros Hall. split.
      * intros [x Hx]. rewrite (Hall k) in Hx by left. discriminate.
      * intros k' Hin. apply Hall. right. exact Hin.
Qed.

Lemma clashes_empty (named : list string) : clashes named ∅ = false.
Proof. apply clashes_false. intros k _. apply lookup_empty. Qed.

Lemma edit_sent (on : target) (kwargs : gmap string pyval) (s : session) :
  kwargs !! "view" = None ->
  edit on kwargs s = (inr tt, record (Edit on kwargs (rendered s)) s).
Proof.
  intros Hview. unfold edit.
  assert (clashes ["view"] kwargs = false) as ->; [|reflexivity].
  apply clashes_false. intros k Hk. apply list_elem_of_singleton in Hk as ->. exact Hview.
Qed.

Lemma edit_clash (on : target) (kwargs : gmap string pyval) (s : session) :
  is_Some (kwargs !! "view") ->
  edit on kwargs s = (inl TypeError, s).
Proof.
  intros Hview. unfold edit, clashes. cbn.
  rewrite bool_decide_eq_true_2 by exact Hview. reflexivity.
Qed.

(** Whatever [edit] does, it writes nothing but the outbox. *)
Lemma edit_frame (on : target) (kwargs : gmap string pyval) (s : session) :
  snd (edit on kwargs s) = s \/
  snd (edit on kwargs s) = record (Edit on kwargs (rendered s)) s.
Proof. unfold edit. destruct (clashes ["view"] kwargs); auto. Qed.

(** ** What the methods leave alone *)

(** Unfolds the monad down to functions on sessions. *)
Ltac run :=
  unfold mbind, M_bind, mret, M_ret, assign_disabled, emit, pass,
         bind, ret, get, modify, raise, lift in *;
  cbn [fst snd] in *.

Section Frames.
Context {page : Type} (source : PageSource page) (f : file).

(** [_update_labels] writes nothing but [disabled] flags, also when it
    raises. *)
Lemma update_labels_frame (p : Z) (s : session) :
  let s' := snd (_update_labels source f p s) in
  s' = set_controls (disabled s') s.
Proof.
  destruct s as [ce inv msg cp cm ch ds fin rsp ob].
  unfold _update_labels, PaginationPy._update_labels, MainPy._update_labels.
  run.
  destruct f, cm, (get_max_pages source) as [m|]; cbn;
    repeat (match goal with |- context [if ?b then _ else _] => destruct b end; cbn);
    reflexivity.
Qed.

Lemma update_labels_current_page (p : Z) (s : session) :
  current_page (snd (_update_labels source f p s)) = current_page s.
Proof. rewrite (update_labels_frame p s). reflexivity. Qed.

(** [show_page] stores the page number as soon as the source has handed
    over the page, before formatting, labels and edit. *)
Lemma show_page_jumps (i : press) (n : Z) (s : session) (pg : page) :
  get_page source n = inr pg ->
  current_page (snd (show_page source f i n s)) = n.
Proof.
  intros Hpg. unfold show_page, _get_kwargs_from_page. run. rewrite Hpg.
  destruct (format_page source pg) as [e|v]; [reflexivity|].
  pose proof (update_labels_current_page n (set_current_page n s)) as Hcp.
  destruct (_update_labels source f n (set_current_page n s)) as [[e|[]] s1];
    cbn in Hcp |- *; [exact Hcp|].
  destruct (decide (kwargs_of v = ∅)); [exact Hcp|].
  destruct (response_done i).
  - destruct (message s1) as [h|]; [|exact Hcp].
    destruct (edit_frame (OnMessage h) (kwargs_of v) s1) as [-> | ->]; exact Hcp.
  - destruct (edit_frame OnResponse (kwargs_of v) s1) as [-> | ->]; exact Hcp.
Qed.

(** A page the source refuses leaves the session untouched. *)
Lemma show_page_refused (i : press) (n : Z) (s : session) (e : exn) :
  get_page source n = inl e ->
  show_page source f i n s = (inl e, s).
Proof. intros Hpg. unfold show_page. run. rewrite Hpg. reflexivity. Qed.

Lemma try_except_current_page (c : M unit) (s : session) :
  current_page (snd (try_except_IndexError c s)) = current_page (snd (c s)).
Proof.
  unfold try_except_IndexError.
  destruct (c s) as [[[]|[]] s']; reflexivity.
Qed.
End Frames.

(** ** The setup is kept *)

Lemma same_setup_refl (s : session) : same_setup s s.
Proof. unfold same_setup. auto. Qed.

Lemma same_setup_trans (s1 s2 s3 : session) :
  same_setup s1 s2 -> same_setup s2 s3 -> same_setup s1 s3.
Proof. unfold same_setup. intuition congruence. Qed.

Lemma keeps_ret {A : Type} (a : A) : keeps_setup (mret a).
Proof. intros s. apply same_setup_refl. Qed.

Lemma keeps_pass : keeps_setup pass.
Proof. intros s. apply same_setup_refl. Qed.

Lemma keeps_raise {A : Type} (e : exn) : keeps_setup (@raise A e).
Proof. intros s. apply same_setup_refl. Qed.

Lemma keeps_lift {A : Type} (r : outcome A) : keeps_setup (lift r).
Proof. intros s. apply same_setup_refl. Qed.

Lemma keeps_get : keeps_setup get.
Proof. intros s. apply same_setup_refl. Qed.

Lemma keeps_bind {A B : Type} (c : M A) (k : A -> M B) :
  keeps_setup c -> (forall a, keeps_setup (k a)) -> keeps_setup (c ≫= k).
Proof.
  intros Hc Hk s. unfold mbind, M_bind, bind.
  specialize (Hc s). destruct (c s) as [[e|a] s1]; cbn in Hc |- *; [exact Hc|].
  eapply same_setup_trans; [exact Hc | apply Hk].
Qed.

Lemma keeps_try (c : M unit) : keeps_setup c -> keeps_setup (try_except_IndexError c).
Proof.
  intros Hc s. unfold try_except_IndexError.
  specialize (Hc s). destruct (c s) as [[[]|[]] s1]; exact Hc.
Qed.

Lemma keeps_emit (e : event) : keeps_setup (emit e).
Proof. intros s. unfold same_setup. cbn. auto. Qed.

Lemma keeps_edit (on : target) (kwargs : gmap string pyval) : keeps_setup (edit on kwargs).
Proof.
  intros s. unfold same_setup, edit.
  destruct (clashes ["view"] kwargs); cbn; auto.
Qed.

Lemma keeps_post (via : channel) (kwargs : gmap string pyval) (with_view ephemeral : bool) :
  keeps_setup (post via kwargs with_view ephemeral).
Proof.
  intros s. unfold same_setup, post.
  destruct (clashes (named_by_send via) kwargs); cbn; auto.
Qed.

Lemma keeps_assign_disabled (b : button) (x : bool) : keeps_setup (assign_disabled b x).
Proof. intros s. unfold same_setup. cbn. auto. Qed.

Lemma keeps_set_current_page (n : Z) : keeps_setup (modify (set_current_page n)).
Proof. intros s. unfold same_setup. cbn. auto. Qed.

Lemma keeps_set_message (m : option nat) : keeps_setup (modify (set_message m)).
Proof. intros s. unfold same_setup. cbn. auto. Qed.

Lemma keeps_set_responded (x : bool) : keeps_setup (modify (set_responded x)).
Proof. intros s. unfold same_setup. cbn. auto. Qed.

Lemma keeps_set_finished (x : bool) : keeps_setup (modify (set_finished x)).
Proof. intros s. unfold same_setup. cbn. auto. Qed.

Lemma keeps_disable_all (bs : list button) : keeps_setup (disable_all bs).
Proof.
  induction bs as [|b bs IH]; cbn [disable_all].
  - apply keeps_pass.
  - apply keeps_bind; [apply keeps_assign_disabled | intros _; exact IH].
Qed.

Create HintDb setup.
#[local] Hint Resolve keeps_ret keeps_pass keeps_raise keeps_lift keeps_get keeps_try
  keeps_emit keeps_edit keeps_post keeps_assign_disabled keeps_set_current_page
  keeps_set_message keeps_set_responded keeps_set_finished keeps_disable_all : setup.

(** Walks through a method: binds, branches, then the primitives. *)
Ltac keeps :=
  repeat first
    [ solve [auto with setup]
    | match goal with
      | |- keeps_setup (if ?b then _ else _) => destruct b
      | |- keeps_setup (match ?x with _ => _ end) => destruct x
      end
    | apply keeps_bind; [|intros ?] ].

Section Setup.
Context {page : Type} (source : PageSource page) (f : file).

Lemma keeps_update_labels (p : Z) : keeps_setup (_update_labels source f p).
Proof.
  unfold _update_labels, PaginationPy._update_labels, MainPy._update_labels.
  destruct f; keeps.
Qed.

Lemma keeps_show_page (i : press) (n : Z) : keeps_setup (show_page source f i n).
Proof.
  pose proof keeps_update_labels.
  unfold show_page, _get_kwargs_from_page. keeps.
Qed.

Lemma keeps_show_checked_page (i : press) (n : Z) :
  keeps_setup (show_checked_page source f i n).
Proof.
  pose proof keeps_show_page.
  unfold show_checked_page. cbv zeta. apply keeps_try. keeps.
Qed.

Lemma keeps_start (content : option string) (ephemeral : bool) :
  keeps_setup (start source f content ephemeral).
Proof.
  pose proof keeps_update_labels.
  unfold start, start_page, _get_kwargs_from_page. keeps.
Qed.

Lemma keeps_on_timeout : keeps_setup on_timeout.
Proof. unfold on_timeout. keeps. Qed.

Lemma keeps_stop_pages (i : press) : keeps_setup (stop_pages i).
Proof. unfold stop_pages. keeps. Qed.

Lemma keeps_interaction_check (i : press) : keeps_setup (interaction_check i).
Proof. unfold interaction_check. keeps. Qed.

Lemma keeps_buttons (i : press) :
  keeps_setup (go_to_first_page source f i) /\
  keeps_setup (go_to_previous_page source f i) /\
  keeps_setup (go_to_next_page source f i) /\
  keeps_setup (go_to_last_page source f i).
Proof.
  pose proof keeps_show_page. pose proof keeps_show_checked_page.
  unfold go_to_first_page, go_to_previous_page, go_to_next_page, go_to_last_page.
  split; [|split; [|split]]; keeps.
Qed.
End Setup.

(** The id the gate compares with belongs to the setup. *)
Lemma predicate_kept {A : Type} (c : M A) (s : session) :
  keeps_setup c -> predicate (snd (c s)) = predicate s.
Proof.
  intros Hc. destruct (Hc s) as (Hint & _). unfold predicate. rewrite Hint. reflexivity.
Qed.

(** ** Button enablement *)

Section Labels.
Context {page : Type} (source : PageSource page).

(** With a known page count, or in compact mode, both files set the flags
    the policy asks for and return normally. *)
Lemma update_labels_policy (f : file) (p : Z) (s : session) :
  is_Some (get_max_pages source) \/ compact s = true ->
  exists s',
    _update_labels source f p s = (inr tt, s') /\
    enablement_policy p (get_max_pages source) (compact s) (disabled s').
Proof.
  intros Hok. destruct s as [ce inv msg cp cm ch ds fin rsp ob].
  unfold _update_labels, PaginationPy._update_labels, MainPy._update_labels,
         enablement_policy, at_last_page.
  run. cbn [compact] in *.
  destruct (get_max_pages source) as [m|], cm;
    try (destruct Hok as [[? ?]|?]; discriminate);
    destruct f; cbn;
    try (destruct (p + 1 >=? m); cbn); destruct (p =? 0); cbn;
    eexists; (split; [reflexivity|]); cbn; intuition congruence.
Qed.

(** There the two files agree on the whole outcome. *)
Lemma update_labels_agree (p : Z) (s : session) :
  is_Some (get_max_pages source) \/ compact s = true ->
  _update_labels source pagination_py p s = _update_labels source main_py p s.
Proof.
  intros Hok. destruct s as [ce inv msg cp cm ch ds fin rsp ob].
  unfold _update_labels, PaginationPy._update_labels, MainPy._update_labels.
  run. cbn [compact] in *.
  destruct (get_max_pages source) as [m|], cm;
    try (destruct Hok as [[? ?]|?]; discriminate); cbn;
    try (destruct (p + 1 >=? m); cbn); destruct (p =? 0); reflexivity.
Qed.

(** With the full set of controls and an unknown page count the two files
    part: [src/pagination.py] returns with Previous and Next enabled whatever
    the page, [src/main.py] sets First, Next and Previous and then raises at
    the comparison for Last.  Neither writes the flag of Last. *)
Lemma update_labels_unknown_count (p : Z) (s : session) :
  get_max_pages source = None ->
  compact s = false ->
  _update_labels source pagination_py p s =
    (inr tt,
     set_controls (mkControls (p =? 0) false (quit_disabled (disabled s)) false
                              (last_disabled (disabled s))) s) /\
  _update_labels source main_py p s =
    (inl TypeError,
     set_controls (mkControls (p =? 0) (p =? 0) (quit_disabled (disabled s)) false
                              (last_disabled (disabled s))) s).
Proof.
  intros Hmax Hcompact. destruct s as [ce inv msg cp cm ch ds fin rsp ob].
  cbn [compact] in Hcompact. subst cm.
  unfold _update_labels, PaginationPy._update_labels, MainPy._update_labels.
  run. rewrite Hmax. cbn. split; reflexivity.
Qed.
End Labels.

(** C5, at the input where the code departs from it: the full set of
    controls (not compact), a source with an unknown page count, page 0.  In
    [src/pagination.py] First ends up disabled and Previous enabled; in
    [src/main.py] the comparison for Last raises [TypeError] and the method
    does not return. *)
Theorem update_labels_unknown_count_first_page :
  let view := PaginationView lazy_source (ctx true) true false in
  let after := snd (PaginationPy._update_labels lazy_source 0 view) in
  compact view = false /\
  get_max_pages lazy_source = None /\
  fst (PaginationPy._update_labels lazy_source 0 view) = inr tt /\
  first_disabled (disabled after) = true /\
  previous_disabled (disabled after) = false /\
  fst (MainPy._update_labels lazy_source 0 view) = inl TypeError.
Proof. vm_compute. repeat split. Qed.

(** C9, at the same input: the two files part ways.  [src/pagination.py]
    returns with Previous enabled, [src/main.py] raises with Previous
    disabled. *)
Theorem update_labels_files_differ :
  let view := PaginationView lazy_source (ctx true) true false in
  let by_pagination := _update_labels lazy_source pagination_py 0 view in
  let by_main := _update_labels lazy_source main_py 0 view in
  fst by_pagination = inr tt /\
  fst by_main = inl TypeError /\
  previous_disabled (disabled (snd by_pagination)) = false /\
  previous_disabled (disabled (snd by_main)) = true /\
  by_pagination <> by_main.
Proof. vm_compute. repeat split. discriminate. Qed.

(** ** Starting a session *)

(** The labels return wherever the comparison for Last has a number to
    compare with or is not reached. *)
Lemma update_labels_returns {page : Type} (source : PageSource page) (f : file)
    (p : Z) (s : session) :
  f = pagination_py \/ is_Some (get_max_pages source) \/ compact s = true ->
  exists c, _update_labels source f p s = (inr tt, set_controls c s).
Proof.
  intros Hok. destruct s as [ce inv msg cp cm ch ds fin rsp ob].
  unfold _update_labels, PaginationPy._update_labels, MainPy._update_labels.
  run. cbn [compact] in *.
  destruct f, cm, (get_max_pages source) as [m|]; cbn;
    try (destruct Hok as [?|[[? ?]|?]]; discriminate);
    try (destruct (p + 1 >=? m); cbn); try (destruct (p =? 0); cbn);
    eexists; reflexivity.
Qed.

Lemma with_content_other (k : string) (content : option string)
    (kwargs : gmap string pyval) :
  k <> "content" -> with_content content kwargs !! k = kwargs !! k.
Proof.
  intros Hk. unfold with_content. destruct content as [c|]; [|reflexivity].
  destruct (truthy (Some c)); [|reflexivity].
  unfold setdefault. destruct (kwargs !! "content"); [reflexivity|].
  rewrite lookup_insert_ne by congruence. reflexivity.
Qed.

(** The extra content adds no keyword that a send names itself. *)
Lemma clashes_with_content (named : list string) (content : option string)
    (kwargs : gmap string pyval) :
  "content" ∉ named ->
  clashes named (with_content content kwargs) = clashes named kwargs.
Proof.
  unfold clashes. induction named as [|k named IH]; intros Hnot; [reflexivity|].
  cbn [existsb]. rewrite IH by (intros Hin; apply Hnot; right; exact Hin).
  rewrite with_content_other; [reflexivity|].
  intros ->. apply Hnot. left.
Qed.

Lemma content_not_named (via : channel) : "content" ∉ named_by_send via.
Proof.
  destruct via; cbn; rewrite !elem_of_cons, elem_of_nil;
    intros [?|[?|?]]; try discriminate; contradiction.
Qed.

(** The body of [start], once page 0 loads and formats and the labels have
    returned: the send raises on a keyword clash and nothing is recorded,
    else the page is posted, with the view unless it is a follow-up, and the
    posted message becomes the live one. *)
Lemma start_page_run {page : Type} (source : PageSource page) (f : file)
    (content : option string) (ephemeral : bool) (s s1 : session)
    (pg : page) (v : formatted) :
  get_page source 0 = inr pg ->
  format_page source pg = inr v ->
  _update_labels source f 0 (record PrepareOnce s) = (inr tt, s1) ->
  let sent := with_content content (kwargs_of v) in
  let shown := match via_of s with ViaFollowup => None | _ => Some (rendered s1) end in
  let posted := record (Post (via_of s) sent shown ephemeral) s1 in
  start_page source f content ephemeral s =
    if clashes (named_by_send (via_of s)) (kwargs_of v) then (inl TypeError, s1)
    else (inr tt,
          set_message (Some (length (outbox s ++ [PrepareOnce])))
            (match via_of s with
             | ViaResponse => set_responded true posted
             | _ => posted
             end)).
Proof.
  intros Hpg Hv Hlab. cbv zeta.
  pose proof (update_labels_frame source f 0 (record PrepareOnce s)) as Hframe.
  rewrite Hlab in Hframe. cbn in Hframe.
  assert (interaction s1 = interaction s) as Hint by (rewrite Hframe; reflexivity).
  assert (responded s1 = responded s) as Hrsp by (rewrite Hframe; reflexivity).
  assert (outbox s1 = outbox s ++ [PrepareOnce]) as Hout by (rewrite Hframe; reflexivity).
  unfold start_page, _get_kwargs_from_page. run.
  rewrite Hpg, Hv, Hlab. unfold post, via_of. rewrite Hint, Hrsp.
  destruct (kind (interaction s)); [|destruct (responded s)]; cbn [negb];
    rewrite (clashes_with_content _ content (kwargs_of v)
               (content_not_named _));
    match goal with |- context [clashes ?n ?k] => destruct (clashes n k) end;
    rewrite ?Hout; reflexivity.
Qed.

(** What the body of [start] adds to the outbox, in every case: the mark of
    [_prepare_once], and after it at most the one post of the first page. *)
Lemma start_page_outbox {page : Type} (source : PageSource page) (f : file)
    (content : option string) (ephemeral : bool) (s : session) :
  let s' := snd (start_page source f content ephemeral s) in
  outbox s' = outbox s ++ [PrepareOnce] \/
  exists pg v view,
    get_page source 0 = inr pg /\
    format_page source pg = inr v /\
    outbox s' =
      outbox s ++ [PrepareOnce;
                   Post (via_of s) (with_content content (kwargs_of v)) view ephemeral].
Proof.
  cbv zeta.
  destruct (get_page source 0) as [e|pg] eqn:Hpg.
  { left. unfold start_page. run. rewrite Hpg. reflexivity. }
  destruct (format_page source pg) as [e|v] eqn:Hv.
  { left. unfold start_page, _get_kwargs_from_page. run. rewrite Hpg, Hv. reflexivity. }
  pose proof (update_labels_frame source f 0 (record PrepareOnce s)) as Hframe.
  destruct (_update_labels source f 0 (record PrepareOnce s)) as [[e|[]] s1] eqn:Hlab;
    cbn in Hframe.
  { left. unfold start_page, _get_kwargs_from_page. run. rewrite Hpg, Hv, Hlab.
    rewrite Hframe. reflexivity. }
  rewrite (start_page_run source f content ephemeral s s1 pg v Hpg Hv Hlab).
  destruct (clashes (named_by_send (via_of s)) (kwargs_of v)).
  - left. rewrite Hframe. reflexivity.
  - right. exists pg, v.
    assert (outbox s1 = outbox s ++ [PrepareOnce]) as Hout by (rewrite Hframe; reflexivity).
    destruct (via_of s); eexists;
      (split; [first [reflexivity | exact Hpg]|]);
      (split; [first [reflexivity | exact Hv]|]);
      cbn; rewrite Hout, <- app_assoc; reflexivity.
Qed.

(** With an Interaction, a missing permission ends [start] after the notice:
    nothing is prepared, rendered or recorded as the live message. *)
Lemma start_denied_interaction {page : Type} (source : PageSource page) (f : file)
    (content : option string) (ephemeral : bool) (s : session) :
  kind (interaction s) = Interaction ->
  check_embeds s = true ->
  embed_links (interaction s) = false ->
  start source f content ephemeral s =
    (inr tt, set_responded true (record (Notice ViaResponse "Missing embed permissions.") s)).
Proof.
  intros Hkind Hcheck Hlinks.
  unfold start. run.
  rewrite Hcheck, Hlinks, Hkind. reflexivity.
Qed.

(** With a Context the notice is followed by the whole body: for every source
    whose first page loads and formats to kwargs a send accepts, the denial
    and the page are both sent and the page is recorded as the live message. *)
Lemma start_denied_context {page : Type} (source : PageSource page) (f : file)
    (content : option string) (ephemeral : bool) (s : session)
    (pg : page) (v : formatted) :
  kind (interaction s) = Context ->
  check_embeds s = true ->
  embed_links (interaction s) = false ->
  get_page source 0 = inr pg ->
  format_page source pg = inr v ->
  f = pagination_py \/ is_Some (get_max_pages source) \/ compact s = true ->
  clashes ["view"; "ephemeral"] (kwargs_of v) = false ->
  exists view s',
    start source f content ephemeral s = (inr tt, s') /\
    outbox s' =
      outbox s ++ [Notice ViaSend "Missing embed permissions."; PrepareOnce;
                   Post ViaSend (with_content content (kwargs_of v)) (Some view) ephemeral] /\
    message s' = Some (S (S (length (outbox s)))).
Proof.
  intros Hkind Hcheck Hlinks Hpg Hv Hok Hclash.
  unfold start. run. rewrite Hcheck, Hlinks, Hkind. cbn.
  set (s0 := record (Notice ViaSend "Missing embed permissions.") s).
  destruct (update_labels_returns source f 0 (record PrepareOnce s0) Hok) as (c & Hlab).
  rewrite (start_page_run source f content ephemeral s0 _ pg v Hpg Hv Hlab).
  assert (via_of s0 = ViaSend) as Hvia by (unfold via_of; cbn; rewrite Hkind; reflexivity).
  rewrite Hvia. cbn [named_by_send]. rewrite Hclash.
  eexists _, _. split; [reflexivity|]. cbn.
  rewrite <- !app_assoc, !length_app. cbn. split; [reflexivity|]. f_equal. lia.
Qed.

(** An Interaction already answered gets the page as a follow-up, sent
    without [view=self]: the message carries no controls. *)
Lemma start_followup_without_view :
  let view := PaginationView counted_source slash_deferred true false in
  outbox (snd (start counted_source pagination_py None false view)) =
    [ PrepareOnce;
      Post ViaFollowup {[ "content" := VStr "one"; "embed" := VNone ]} None false ].
Proof. reflexivity. Qed.

(** What [start] adds to the outbox, in every case: the denial if the
    permission is missing, and then, unless the call ends there, what its
    body adds. *)
Lemma start_outbox {page : Type} (source : PageSource page) (f : file)
    (content : option string) (ephemeral : bool) (s : session) :
  exists new,
    outbox (snd (start source f content ephemeral s)) = outbox s ++ new /\
    forall via kwargs view e, Post via kwargs view e ∈ new ->
      exists pg v,
        get_page source 0 = inr pg /\
        format_page source pg = inr v /\
        kwargs = with_content content (kwargs_of v) /\
        e = ephemeral.
Proof.
  assert (forall s0 prefix,
            outbox s0 = outbox s ++ prefix ->
            (forall via kwargs view e, ~ Post via kwargs view e ∈ prefix) ->
            exists new,
              outbox (snd (start_page source f content ephemeral s0)) = outbox s ++ new /\
              forall via kwargs view e, Post via kwargs view e ∈ new ->
                exists pg v,
                  get_page source 0 = inr pg /\
                  format_page source pg = inr v /\
                  kwargs = with_content content (kwargs_of v) /\
                  e = ephemeral) as Hbody.
  { intros s0 prefix Hs0 Hprefix.
    destruct (start_page_outbox source f content ephemeral s0)
      as [Hout | (pg & v & view & Hpg & Hv & Hout)]; rewrite Hout, Hs0, <- app_assoc.
    - eexists. split; [reflexivity|].
      intros via kwargs view e Hin. apply elem_of_app in Hin as [Hin|Hin].
      + exfalso. eapply Hprefix. exact Hin.
      + apply list_elem_of_singleton in Hin. discriminate.
    - eexists. split; [reflexivity|].
      intros via kwargs view' e Hin. apply elem_of_app in Hin as [Hin|Hin].
      + exfalso. eapply Hprefix. exact Hin.
      + apply elem_of_cons in Hin as [Hin|Hin]; [discriminate|].
        apply list_elem_of_singleton in Hin. injection Hin as -> -> -> ->.
        exists pg, v. auto. }
  unfold start. run.
  destruct (check_embeds s && negb (embed_links (interaction s)));
    [destruct (kind (interaction s))|].
  - apply (Hbody _ [Notice ViaSend "Missing embed permissions."]); [reflexivity|].
    intros via kwargs view e Hin. apply list_elem_of_singleton in Hin. discriminate.
  - exists [Notice ViaResponse "Missing embed permissions."]. split; [reflexivity|].
    intros via kwargs view e Hin. apply list_elem_of_singleton in Hin. discriminate.
  - apply (Hbody s []); [rewrite app_nil_r; reflexivity|].
    intros via kwargs view e Hin. inversion Hin.
Qed.

(** Where [start] does post: the call has not ended at the permission test,
    page 0 loads and formats, the labels return, and the kwargs hold none of
    the keywords the send names itself. *)
Lemma start_sends {page : Type} (source : PageSource page) (f : file)
    (content : option string) (ephemeral : bool) (s : session)
    (pg : page) (v : formatted) :
  check_embeds s && negb (embed_links (interaction s)) = false \/
  kind (interaction s) = Context ->
  get_page source 0 = inr pg ->
  format_page source pg = inr v ->
  f = pagination_py \/ is_Some (get_max_pages source) \/ compact s = true ->
  clashes (named_by_send (via_of s)) (kwargs_of v) = false ->
  exists prefix view,
    fst (start source f content ephemeral s) = inr tt /\
    outbox (snd (start source f content ephemeral s)) =
      outbox s ++ prefix ++
      [PrepareOnce; Post (via_of s) (with_content content (kwargs_of v)) view ephemeral] /\
    is_Some (message (snd (start source f content ephemeral s))) /\
    prefix =
      (if check_embeds s && negb (embed_links (interaction s))
       then [Notice ViaSend "Missing embed permissions."] else []).
Proof.
  intros Hpath Hpg Hv Hok Hclash.
  assert (forall s0 prefix,
            outbox s0 = outbox s ++ prefix -> via_of s0 = via_of s ->
            compact s0 = compact s ->
            exists view,
              fst (start_page source f content ephemeral s0) = inr tt /\
              outbox (snd (start_page source f content ephemeral s0)) =
                outbox s ++ prefix ++
                [PrepareOnce;
                 Post (via_of s) (with_content content (kwargs_of v)) view ephemeral] /\
              is_Some (message (snd (start_page source f content ephemeral s0)))) as Hbody.
  { intros s0 prefix Hs0 Hvia Hcompact.
    destruct (update_labels_returns source f 0 (record PrepareOnce s0)) as (c & Hlab);
      [cbn; rewrite Hcompact; exact Hok|].
    rewrite (start_page_run source f content ephemeral s0 _ pg v Hpg Hv Hlab).
    rewrite Hvia, Hclash.
    destruct (via_of s); eexists; (split; [reflexivity|]);
      cbn; rewrite Hs0, <- !app_assoc; (split; [reflexivity | eauto]). }
  unfold start. run.
  destruct (check_embeds s && negb (embed_links (interaction s))) eqn:Hdenied.
  - destruct Hpath as [? | Hkind]; [discriminate|]. rewrite Hkind. cbn.
    destruct (Hbody (record (Notice ViaSend "Missing embed permissions.") s)
                [Notice ViaSend "Missing embed permissions."])
      as (view & Hfst & Hout & Hmsg); try reflexivity.
    exists [Notice ViaSend "Missing embed permissions."], view. auto.
  - destruct (Hbody s []) as (view & Hfst & Hout & Hmsg);
      [rewrite app_nil_r; reflexivity | reflexivity | reflexivity |].
    exists [], view. auto.
Qed.

(** C1, at the input where the code departs from it: a session started from a
    command Context in a channel without the embed permission.  [start] sends
    the denial and then goes on to prepare the source, render page 0 and post
    it with the controls, and keeps the posted message as the live one; the
    same call from an Interaction stops after the denial. *)
Theorem start_context_denied_and_posted (f : file) :
  let view := PaginationView counted_source (ctx false) true false in
  let after := snd (start counted_source f None false view) in
  fst (start counted_source f None false view) = inr tt /\
  outbox after =
    [ Notice ViaSend "Missing embed permissions.";
      PrepareOnce;
      Post ViaSend {[ "content" := VStr "one"; "embed" := VNone ]}
           (Some [(First, true); (Previous, true); (Quit, false);
                  (Next, false); (Last, false)]) false ] /\
  message after = Some 2%nat /\
  outbox (snd (start counted_source f None false
                 (PaginationView counted_source (slash false) true false))) =
    [ Notice ViaResponse "Missing embed permissions." ].
Proof. destruct f; vm_compute; repeat split; reflexivity. Qed.

(** ** The extra content of [start] *)

(** Which answers of [format_page] leave the content key free. *)
Lemma kwargs_of_content_free (v : formatted) :
  kwargs_of v !! "content" = None <->
  v = FOther \/ exists d, v = FDict d /\ d !! "content" = None.
Proof.
  destruct v as [d|t|e|]; cbn [kwargs_of].
  - split; [intros Hd; right; exists d; auto | intros [?|(d' & Heq & Hd')]];
      [discriminate | congruence].
  - split; [intros Hd; vm_compute in Hd; discriminate | intros [?|(d' & Heq & _)]; discriminate].
  - split; [intros Hd; vm_compute in Hd; discriminate | intros [?|(d' & Heq & _)]; discriminate].
  - split; [left; reflexivity | intros _; apply lookup_empty].
Qed.

(** C10 as worded fails for an answer of [format_page] that is neither a
    dict, a str nor an Embed: the kwargs are then empty and the caller's
    content is sent, though no mapping was returned. *)
Lemma start_content_kept_without_mapping :
  let view := PaginationView blank_source (ctx true) true false in
  format_page blank_source tt = inr FOther /\
  outbox (snd (start blank_source pagination_py (Some "hi") false view)) =
    [PrepareOnce; Post ViaSend {[ "content" := VStr "hi" ]} (Some []) false].
Proof. vm_compute. split; reflexivity. Qed.

(** C10, amended.  For a content [c] that is not empty: whatever message
    [start] posts carries the kwargs formatted from page 0 with [c] stored
    under the content key iff that key is free, and [start] does post it
    wherever the call has not ended at the permission test, page 0 loads and
    formats, the labels return and the kwargs clash with no keyword of the
    send.  The key is free iff [format_page] answered a dict without it or a
    value that is neither a dict, a str nor an Embed; for a str or an Embed
    the key is taken (by the text, by [None]) and [c] is dropped.  An empty
    [c] is never added. *)
Theorem start_content_setdefault {page : Type} (source : PageSource page) (f : file)
    (c : string) (ephemeral : bool) (s : session) :
  c <> "" ->
  let s' := snd (start source f (Some c) ephemeral s) in
  (exists new,
     outbox s' = outbox s ++ new /\
     forall via kwargs view e, Post via kwargs view e ∈ new ->
       exists pg v,
         get_page source 0 = inr pg /\
         format_page source pg = inr v /\
         kwargs = with_content (Some c) (kwargs_of v)) /\
  (forall pg v,
     check_embeds s && negb (embed_links (interaction s)) = false \/
     kind (interaction s) = Context ->
     get_page source 0 = inr pg ->
     format_page source pg = inr v ->
     f = pagination_py \/ is_Some (get_max_pages source) \/ compact s = true ->
     clashes (named_by_send (via_of s)) (kwargs_of v) = false ->
     exists prefix view,
       outbox s' =
         outbox s ++ prefix ++
         [PrepareOnce; Post (via_of s) (with_content (Some c) (kwargs_of v)) view ephemeral]) /\
  (forall v,
     let sent := with_content (Some c) (kwargs_of v) in
     (kwargs_of v !! "content" = None <->
        v = FOther \/ exists d, v = FDict d /\ d !! "content" = None) /\
     (kwargs_of v !! "content" = None -> sent = <["content" := VStr c]> (kwargs_of v)) /\
     (is_Some (kwargs_of v !! "content") -> sent = kwargs_of v) /\
     (forall t, v = FStr t -> sent = {[ "content" := VStr t; "embed" := VNone ]}) /\
     (forall e, v = FEmbed e -> sent = {[ "embed" := VEmbed e; "content" := VNone ]}) /\
     with_content (Some "") (kwargs_of v) = kwargs_of v).
Proof.
  intros Hc. cbv zeta.
  assert (truthy (Some c) = true) as Htruthy.
  { cbn. destruct (String.eqb_spec c ""); [contradiction | reflexivity]. }
  assert (forall kw, with_content (Some c) kw = setdefault "content" (VStr c) kw) as Hwith.
  { intros kw. unfold with_content. rewrite Htruthy. reflexivity. }
  split; [|split].
  - destruct (start_outbox source f (Some c) ephemeral s) as (new & Hout & Hnew).
    exists new. split; [exact Hout|].
    intros via kwargs view e Hin.
    destruct (Hnew via kwargs view e Hin) as (pg & v & Hpg & Hv & Hkw & _).
    exists pg, v. auto.
  - intros pg v Hpath Hpg Hv Hok Hclash.
    destruct (start_sends source f (Some c) ephemeral s pg v Hpath Hpg Hv Hok Hclash)
      as (prefix & view & _ & Hout & _).
    exists prefix, view. exact Hout.
  - intros v. split; [|split; [|split; [|split; [|split]]]].
    + apply kwargs_of_content_free.
    + intros Hfree. rewrite Hwith. unfold setdefault. rewrite Hfree. reflexivity.
    + intros [x Hx]. rewrite Hwith. unfold setdefault. rewrite Hx. reflexivity.
    + intros t ->. rewrite Hwith. reflexivity.
    + intros e ->. rewrite Hwith. reflexivity.
    + reflexivity.
Qed.

Lemma start_content_setdefault_witness :
  let view := PaginationView dict_source (ctx false) true false in
  (exists prefix shown,
     outbox (snd (start dict_source main_py (Some "hi") true view)) =
       outbox view ++ prefix ++
       [PrepareOnce;
        Post ViaSend (with_content (Some "hi") (kwargs_of (FDict {[ "embed" := VNone ]})))
             shown true]) /\
  with_content (Some "hi") (kwargs_of (FDict {[ "embed" := VNone ]})) =
    <["content" := VStr "hi"]> {[ "embed" := VNone ]}.
Proof.
  intros view.
  pose proof (start_content_setdefault dict_source main_py "hi" true view
                ltac:(discriminate)) as (_ & Hposts & Hkeys).
  split.
  - apply (Hposts tt (FDict {[ "embed" := VNone ]}));
      [right; reflexivity | reflexivity | reflexivity
      | right; left; exists 1; reflexivity | reflexivity].
  - exact (proj1 (proj2 (Hkeys (FDict {[ "embed" := VNone ]}))) eq_refl).
Defined.

(** ** The interaction gate *)

(** The id the gate compares with is the invoker's, whatever the kind of
    [self.interaction], and construction stores that interaction unchanged. *)
Lemma predicate_fixed {page : Type} (source : PageSource page)
    (inv : invocation) (check compact : bool) :
  predicate (PaginationView source inv check compact) = invoker inv.
Proof.
  unfold PaginationView, fill_items, clear_items, add_item, predicate.
  destruct (is_paginating source), compact, inv as [[] ? ? ?]; reflexivity.
Qed.

(** The local [predicate] of the gate is the id of the invoker, for either
    kind of [self.interaction]. *)
Lemma predicate_invoker (s : session) : predicate s = invoker (interaction s).
Proof. unfold predicate. destruct (kind (interaction s)); reflexivity. Qed.

(** C7: [interaction_check] answers true exactly when the pressing user's id
    is the id of the user who invoked the session; on true the session is left
    as it was, on false the only change is one ephemeral notice in the outbox:
    the page, the live message, the controls and their flags stay.  That id is
    fixed at construction: the view stores the invoking interaction as given,
    and no method changes it. *)
Theorem interaction_check_owner_only {page : Type} (source : PageSource page)
    (f : file) (i : press) (s : session) :
  let r := interaction_check i s in
  let owner := invoker (interaction s) in
  fst r = inr (bool_decide (actor i = Some owner)) /\
  (actor i = Some owner -> snd r = s) /\
  (actor i <> Some owner ->
     snd r = record (Notice ViaResponse "This menu is not for you.") s /\
     outbox (snd r) = outbox s ++ [Notice ViaResponse "This menu is not for you."] /\
     current_page (snd r) = current_page s /\
     message (snd r) = message s /\
     children (snd r) = children s /\
     disabled (snd r) = disabled s /\
     finished (snd r) = finished s) /\
  (forall n content ephemeral,
     interaction (snd r) = interaction s /\
     interaction (snd (start source f content ephemeral s)) = interaction s /\
     interaction (snd (show_page source f i n s)) = interaction s /\
     interaction (snd (show_checked_page source f i n s)) = interaction s /\
     interaction (snd (go_to_first_page source f i s)) = interaction s /\
     interaction (snd (go_to_previous_page source f i s)) = interaction s /\
     interaction (snd (go_to_next_page source f i s)) = interaction s /\
     interaction (snd (go_to_last_page source f i s)) = interaction s /\
     interaction (snd (stop_pages i s)) = interaction s /\
     interaction (snd (on_timeout s)) = interaction s) /\
  (forall inv check compact_mode,
     interaction (PaginationView source inv check compact_mode) = inv /\
     invoker (interaction (PaginationView source inv check compact_mode)) = invoker inv).
Proof.
  cbv zeta. split; [|split; [|split; [|split]]].
  - unfold interaction_check. run. rewrite predicate_invoker.
    destruct (actor i) as [id|] eqn:Hactor; cbn.
    + destruct (Z.eqb_spec id (invoker (interaction s))) as [->|Hne]; cbn.
      * rewrite bool_decide_eq_true_2 by reflexivity. reflexivity.
      * rewrite bool_decide_eq_false_2 by congruence. reflexivity.
    + rewrite bool_decide_eq_false_2 by congruence. reflexivity.
  - intros Hactor. unfold interaction_check. run. rewrite predicate_invoker, Hactor.
    rewrite Z.eqb_refl. reflexivity.
  - intros Hactor. unfold interaction_check. run. rewrite predicate_invoker.
    destruct (actor i) as [id|]; cbn.
    + destruct (Z.eqb_spec id (invoker (interaction s))) as [->|Hne]; [congruence|].
      cbn. repeat split.
    + cbn. repeat split.
  - intros n content ephemeral.
    destruct (keeps_buttons source f i) as (Hfirst & Hprev & Hnext & Hlast).
    assert (forall (A : Type) (c : M A), keeps_setup c -> interaction (snd (c s)) = interaction s)
      as Hkept by (intros A c Hc; apply (Hc s)).
    repeat split; apply Hkept;
      auto using keeps_interaction_check, keeps_start, keeps_show_page,
                 keeps_show_checked_page, keeps_stop_pages, keeps_on_timeout.
  - intros inv check compact_mode.
    assert (interaction (PaginationView source inv check compact_mode) = inv) as Hinv.
    { unfold PaginationView, fill_items, clear_items, add_item.
      destruct (is_paginating source), compact_mode; reflexivity. }
    rewrite Hinv. split; reflexivity.
Qed.

Lemma interaction_check_owner_only_witness :
  let mine := PaginationView counted_source (ctx_of 5) true false in
  let theirs := PaginationView counted_source (ctx_of 42) true false in
  snd (interaction_check (click 5) mine) = mine /\
  outbox (snd (interaction_check (click 42) mine)) =
    outbox mine ++ [Notice ViaResponse "This menu is not for you."] /\
  snd (interaction_check (click 42) theirs) = theirs /\
  outbox (snd (interaction_check (click 5) theirs)) =
    outbox theirs ++ [Notice ViaResponse "This menu is not for you."].
Proof.
  intros mine theirs. split; [|split; [|split]].
  - apply (proj1 (proj2 (interaction_check_owner_only counted_source main_py
                           (click 5) mine))).
    reflexivity.
  - apply (proj1 (proj2 (proj2 (interaction_check_owner_only counted_source main_py
                                  (click 42) mine)))).
    vm_compute. discriminate.
  - apply (proj1 (proj2 (interaction_check_owner_only counted_source main_py
                           (click 42) theirs))).
    reflexivity.
  - apply (proj1 (proj2 (proj2 (interaction_check_owner_only counted_source main_py
                                  (click 5) theirs)))).
    vm_compute. discriminate.
Defined.

(** ** The guarded jump *)

(** C2 as worded fails in its second half: with an unknown page count the
    page number 7 passes the guard, the source raises [IndexError], the
    handler swallows it, and the current page is still 0. *)
Lemma show_checked_page_unknown_count_stays :
  let view := PaginationView lazy_source (ctx true) true true in
  get_max_pages lazy_source = None /\
  0 <= 7 /\
  current_page (snd (show_checked_page lazy_source pagination_py (click 42) 7 view)) <> 7.
Proof. vm_compute. repeat split; discriminate. Qed.

(** C2, amended.  With a known page count, a target outside
    [0, max_pages - 1] leaves the whole session as it was and returns without
    an exception.  With an unknown count no range test is made: the target
    goes to [show_page], the current page becomes the target when the source
    hands over that page, and when the source raises [IndexError] the call
    returns normally with the session as it was. *)
Theorem show_checked_page_guard {page : Type} (source : PageSource page) (f : file)
    (i : press) (n : Z) (s : session) :
  (forall max_pages, get_max_pages source = Some max_pages ->
     ~ (0 <= n < max_pages) ->
     show_checked_page source f i n s = (inr tt, s)) /\
  (get_max_pages source = None ->
     (forall pg, get_page source n = inr pg ->
        current_page (snd (show_checked_page source f i n s)) = n) /\
     (get_page source n = inl IndexError ->
        show_checked_page source f i n s = (inr tt, s))).
Proof.
  split.
  - intros m Hmax Hout. unfold show_checked_page. rewrite Hmax.
    destruct (Z.gtb_spec m n), (Z.geb_spec n 0); cbn; try reflexivity; lia.
  - intros Hmax. unfold show_checked_page. rewrite Hmax. split.
    + intros pg Hpg. rewrite try_except_current_page.
      eapply show_page_jumps; eassumption.
    + intros Hpg. unfold try_except_IndexError.
      rewrite (show_page_refused source f i n s IndexError Hpg). reflexivity.
Qed.

Lemma show_checked_page_guard_witness :
  let counted := PaginationView counted_source (ctx true) true false in
  let lazy := PaginationView lazy_source (ctx true) true true in
  show_checked_page counted_source main_py (click 42) 3 counted = (inr tt, counted) /\
  current_page (snd (show_checked_page lazy_source main_py (click 42) 2 lazy)) = 2 /\
  show_checked_page lazy_source main_py (click 42) (-1) lazy = (inr tt, lazy).
Proof.
  intros counted lazy. split; [|split].
  - apply (proj1 (show_checked_page_guard counted_source main_py (click 42) 3 counted) 3);
      [reflexivity | lia].
  - apply (proj1 (proj2 (show_checked_page_guard lazy_source main_py (click 42) 2 lazy)
                        eq_refl) "three"); reflexivity.
  - apply (proj2 (proj2 (show_checked_page_guard lazy_source main_py (click 42) (-1) lazy)
                        eq_refl)); reflexivity.
Defined.

(** ** Timeout *)

Lemma disable_all_run (bs : list button) (s : session) :
  disable_all bs s = (inr tt, set_controls (all_disabled bs (disabled s)) s).
Proof.
  revert s. induction bs as [|b bs IH]; intros s.
  - destruct s; reflexivity.
  - cbn [disable_all]. run. rewrite IH. destruct s; reflexivity.
Qed.

Lemma is_disabled_with (b b' : button) (x : bool) (c : controls) :
  is_disabled b (with_disabled b' x c) = if decide (b = b') then x else is_disabled b c.
Proof. destruct b, b'; reflexivity. Qed.

Lemma all_disabled_in (bs : list button) (c : controls) (b : button) :
  is_disabled b (all_disabled bs c) = if decide (b ∈ bs) then true else is_disabled b c.
Proof.
  revert c. induction bs as [|b' bs IH]; intros c.
  - cbn. destruct (decide (b ∈ [])) as [Hin|]; [inversion Hin | reflexivity].
  - unfold all_disabled in *. cbn [fold_left]. rewrite IH, is_disabled_with.
    destruct (decide (b ∈ bs)) as [Hin|Hnin].
    + rewrite decide_True by (right; exact Hin). reflexivity.
    + destruct (decide (b = b')) as [->|Hne].
      * rewrite decide_True by left. reflexivity.
      * rewrite decide_False; [reflexivity|].
        intros Hin. apply elem_of_cons in Hin as [?|?]; contradiction.
  Qed.

(** C8 as worded fails after a stop: [stop_pages] deletes the message on the
    platform and leaves [self.message] set, so a timeout handler that runs
    afterwards still disables the buttons and sends an edit to the deleted
    message. *)
Lemma on_timeout_after_stop_edits :
  let view := PaginationView counted_source (ctx true) true false in
  let started := snd (start counted_source pagination_py None false view) in
  let stopped := snd (stop_pages (click 42) started) in
  finished stopped = true /\
  message stopped = Some 1%nat /\
  on_timeout stopped <> (inr tt, stopped) /\
  outbox (snd (on_timeout stopped)) =
    outbox stopped ++
    [ Edit (OnMessage 1) ∅
        [(First, true); (Previous, true); (Quit, true); (Next, true); (Last, true)] ].
Proof. vm_compute. repeat split. discriminate. Qed.

(** C8, amended.  With a live message recorded, [on_timeout] returns
    normally, sets the [disabled] flag of every attached button, and sends
    one edit of that message carrying the view with all its buttons disabled;
    it deletes nothing and keeps the message, the page and the controls.
    With no message recorded it does nothing.  A stop does not clear the
    recorded message, so the handler is a no-op after a stop only when no
    message had been recorded. *)
Theorem on_timeout_disables (s : session) :
  (message s = None -> on_timeout s = (inr tt, s)) /\
  (forall h, message s = Some h ->
     let s' := snd (on_timeout s) in
     fst (on_timeout s) = inr tt /\
     (forall b, b ∈ children s -> is_disabled b (disabled s') = true) /\
     (forall b, b ∉ children s -> is_disabled b (disabled s') = is_disabled b (disabled s)) /\
     outbox s' = outbox s ++
       [Edit (OnMessage h) ∅ (map (fun b => (b, true)) (children s))] /\
     message s' = Some h /\
     current_page s' = current_page s /\
     children s' = children s /\
     finished s' = finished s) /\
  (forall i,
     fst (stop_pages i s) = inr tt /\
     message (snd (stop_pages i s)) = message s /\
     outbox (snd (stop_pages i s)) = outbox s ++ [Defer; DeleteOriginal] /\
     finished (snd (stop_pages i s)) = true).
Proof.
  split; [|split].
  - intros Hmsg. unfold on_timeout. run. rewrite Hmsg. reflexivity.
  - intros h Hmsg. unfold on_timeout. run. rewrite Hmsg, disable_all_run.
    rewrite edit_sent by apply lookup_empty.
    cbn. repeat split.
    + intros b Hin. rewrite all_disabled_in, decide_True by exact Hin. reflexivity.
    + intros b Hnin. rewrite all_disabled_in, decide_False by exact Hnin. reflexivity.
    + f_equal. f_equal. f_equal. unfold rendered. cbn.
      apply map_ext_in. intros b Hin. f_equal.
      rewrite all_disabled_in, decide_True; [reflexivity|].
      apply list_elem_of_In. exact Hin.
    + exact Hmsg.
  - intros i. unfold stop_pages. run. cbn.
    repeat split. rewrite <- app_assoc. reflexivity.
Qed.

Lemma on_timeout_disables_witness :
  let view := PaginationView counted_source (ctx true) true true in
  let started := snd (start counted_source main_py None false view) in
  on_timeout view = (inr tt, view) /\
  outbox (snd (on_timeout started)) =
    outbox started ++
    [Edit (OnMessage 1) ∅ (map (fun b => (b, true)) (children started))].
Proof.
  intros view started. split.
  - apply (proj1 (on_timeout_disables view)). reflexivity.
  - apply (proj1 (proj2 (on_timeout_disables started)) 1%nat). reflexivity.
Defined.

(** ** The list source *)

Lemma slice_nil {A : Type} (a b : Z) : slice (@nil A) a b = [].
Proof. unfold slice. rewrite drop_nil, take_nil. reflexivity. Qed.




(** The count of the constructor is the ceiling of the quotient. *)
Lemma max_pages_ceiling {A : Type} (l : list A) (per_page : Z) :
  per_page >= 1 ->
  let k := ListPageSource.get_max_pages l per_page in
  (k - 1) * per_page < Z.of_nat (length l) <= k * per_page.
Proof.
  intros Hpp. cbv zeta. unfold ListPageSource.get_max_pages.
  pose proof (Z.div_mod (Z.of_nat (length l)) per_page ltac:(lia)) as Hdiv.
  pose proof (Z.mod_pos_bound (Z.of_nat (length l)) per_page ltac:(lia)) as Hmod.
  destruct (Z.eqb_spec (Z.of_nat (length l) `mod` per_page) 0); nia.
Qed.

(** [GuildMenuPageSource] pages the way the list source does. *)
Lemma guild_menu_inherits (data : list entry) (per_page : Z) :
  get_max_pages (GuildMenu.GuildMenuPageSource data per_page)
    = Some (ListPageSource.get_max_pages data per_page) /\
  get_page (GuildMenu.GuildMenuPageSource data per_page)
    = ListPageSource.get_page data per_page /\
  is_paginating (GuildMenu.GuildMenuPageSource data per_page)
    = ListPageSource.is_paginating data per_page.
Proof. repeat split. Qed.




(** C4 as worded fails for the empty collection paged one by one: the count
    is 0, and page 0 is asked for by indexing, which raises. *)
Lemma get_page_empty_single :
  get_max_pages (GuildMenu.GuildMenuPageSource [] 1) = Some 0 /\
  get_page (GuildMenu.GuildMenuPageSource [] 1) 0 = inl IndexError.
Proof. split; reflexivity. Qed.

(** C4, amended.  For [per_page >= 1] the page count is the ceiling of
    n / per_page, the one integer k with (k - 1) * per_page < n <= k * per_page.
    With no item it is 0, and page 0 is then the empty slice, not an error,
    when [per_page >= 2]; with [per_page] 1 asking for page 0 of the empty
    collection raises [IndexError]. *)
Theorem get_max_pages_ceiling (data : list entry) (per_page : Z) :
  per_page >= 1 ->
  let source := GuildMenu.GuildMenuPageSource data per_page in
  let n := Z.of_nat (length data) in
  (forall k, get_max_pages source = Some k <-> (k - 1) * per_page < n <= k * per_page) /\
  (n = 0 ->
     get_max_pages source = Some 0 /\
     (per_page >= 2 -> get_page source 0 = inr (Slice [])) /\
     (per_page = 1 -> get_page source 0 = inl IndexError)).
Proof.
  intros Hpp. cbv zeta. cbn [get_max_pages get_page GuildMenu.GuildMenuPageSource].
  pose proof (max_pages_ceiling data per_page Hpp) as Hcount. cbv zeta in Hcount.
  split.
  - intros k. split.
    + intros Hk. injection Hk as <-. exact Hcount.
    + intros Hk. f_equal. nia.
  - intros Hn. split; [f_equal; nia|].
    destruct data; [|cbn [length] in Hn; lia].
    unfold ListPageSource.get_page. split.
    + intros Hbig. assert ((per_page =? 1) = false) as -> by lia.
      rewrite slice_nil. reflexivity.
    + intros ->. reflexivity.
Qed.

Lemma get_max_pages_ceiling_witness :
  get_max_pages (GuildMenu.GuildMenuPageSource twelve 5) = Some 3 /\
  get_page (GuildMenu.GuildMenuPageSource [] 5) 0 = inr (Slice []) /\
  get_page (GuildMenu.GuildMenuPageSource [] 1) 0 = inl IndexError.
Proof.
  split; [|split].
  - apply (proj1 (get_max_pages_ceiling twelve 5 ltac:(lia))). cbn. lia.
  - apply (proj1 (proj2 (proj2 (get_max_pages_ceiling [] 5 ltac:(lia)) eq_refl)));
      lia.
  - apply (proj2 (proj2 (proj2 (get_max_pages_ceiling [] 1 ltac:(lia)) eq_refl))).
    reflexivity.
Defined.

(** ** The guild listing *)

Lemma format_line_not_empty (e : entry) (rest : string) :
  String.eqb (GuildMenu.format_line e +:+ rest) "" = false.
Proof.
  unfold GuildMenu.format_line. destruct (name (fst e)); reflexivity.
Qed.

Lemma concat_lines_not_empty (e : entry) (entries : list entry) :
  String.eqb (String.concat (nl +:+ nl) (map GuildMenu.format_line (e :: entries))) ""
  = false.
Proof.
  cbn [map String.concat]. destruct (map GuildMenu.format_line entries).
  - unfold GuildMenu.format_line. destruct (name (fst e)); reflexivity.
  - apply format_line_not_empty.
Qed.

(** The fallback text is used for the empty slice and for no other. *)
Lemma format_page_description (entries : list entry) :
  description (GuildMenu.format_page entries) =
    match entries with
    | [] => "No guilds were found."
    | _ :: _ => String.concat (nl +:+ nl) (map GuildMenu.format_line entries)
    end.
Proof.
  destruct entries as [|e entries]; [reflexivity|].
  unfold GuildMenu.format_page, str_or; cbn [description].
  rewrite concat_lines_not_empty. reflexivity.
Qed.

(** The copy of the formatter in [src/menu.py] renders the empty slice only;
    any entry makes it raise. *)
Lemma menu_py_format_page (entries : list entry) :
  MenuPy.format_page entries =
    match entries with
    | [] => inr {| title := "Server List"; description := "No guilds were found." |}
    | _ :: _ => inl AttributeError
    end.
Proof. destruct entries; reflexivity. Qed.

(** The command itself: anyone but the owner gets no answer; for the owner
    the listing is posted as an embed, and the text handed to [start] is lost
    to the content key the embed already holds. *)
Lemma servers_command_runs :
  GuildMenu.servers_command 7 true [alpha; beta] = None /\
  (outbox <$> (snd <$> GuildMenu.servers_command 1169487822344962060 true [alpha; beta])) =
    Some [ PrepareOnce;
           Post ViaSend
             {[ "embed" := VEmbed {| title := "Server List";
                                     description := "Alpha: http://inv/1" +:+ nl +:+ nl +:+
                                                    "Beta: No invite available" |};
                "content" := VNone ]}
             (Some []) true ].
Proof. split; reflexivity. Qed.

(** C6 as worded fails on the formatter of [src/main.py]: it prints
    [entry[1]] as it stands, and a null there comes out as the text None. *)
Lemma format_page_prints_none :
  description (GuildMenu.format_page [(alpha, Some "http://inv/1"); (beta, None)])
    = "Alpha: http://inv/1" +:+ nl +:+ nl +:+ "Beta: None" /\
  description (GuildMenu.format_page [(alpha, Some "http://inv/1"); (beta, None)])
    <> "Alpha: http://inv/1" +:+ nl +:+ nl +:+ "Beta: No invite available".
Proof. split; [reflexivity | vm_compute; discriminate]. Qed.

(** C6, amended.  The formatter renders each entry as the guild's name, a
    colon and a space, and [entry[1]] printed as it stands, joins the lines
    with a blank line between them, and renders the empty slice as the text
    No guilds were found.  The fallback for a guild without invite is put in
    by the command that builds the entries: a guild is listed with the URL of
    its first invite, or with No invite available when it has none. *)
Theorem guild_listing_rendered :
  (forall entries : list entry,
     description (GuildMenu.format_page entries) =
       match entries with
       | [] => "No guilds were found."
       | _ :: _ =>
           String.concat (nl +:+ nl)
             (map (fun e => name (fst e) +:+ ": " +:+ format_value (snd e)) entries)
       end) /\
  (forall guilds : list Guild,
     description (GuildMenu.format_page (GuildMenu.guilds_data guilds)) =
       match guilds with
       | [] => "No guilds were found."
       | _ :: _ =>
           String.concat (nl +:+ nl)
             (map (fun g => name g +:+ ": " +:+
                            match invites g with
                            | first :: _ => url first
                            | [] => "No invite available"
                            end) guilds)
       end) /\
  description (GuildMenu.format_page (GuildMenu.guilds_data [alpha; beta]))
    = "Alpha: http://inv/1" +:+ nl +:+ nl +:+ "Beta: No invite available".
Proof.
  split; [|split].
  - intros entries. rewrite format_page_description. reflexivity.
  - intros guilds. rewrite format_page_description.
    destruct guilds as [|g guilds]; [reflexivity|].
    unfold GuildMenu.guilds_data. rewrite map_map.
    cbn [map]. reflexivity.
  - reflexivity.
Qed.

(** * Further properties of the view *)

(** ** Relations every step keeps *)

Section Preserves.
Context (R : session -> session -> Prop) `{!PreOrder R}.

Lemma preserves_ret {A : Type} (a : A) : preserves R (mret a).
Proof. intros s. reflexivity. Qed.

Lemma preserves_pass : preserves R pass.
Proof. intros s. reflexivity. Qed.

Lemma preserves_raise {A : Type} (e : exn) : preserves R (@raise A e).
Proof. intros s. reflexivity. Qed.

Lemma preserves_lift {A : Type} (r : outcome A) : preserves R (lift r).
Proof. intros s. reflexivity. Qed.

Lemma preserves_get : preserves R get.
Proof. intros s. reflexivity. Qed.

Lemma preserves_modify (g : session -> session) :
  (forall s, R s (g s)) -> preserves R (modify g).
Proof. intros Hg s. apply Hg. Qed.

Lemma preserves_bind {A B : Type} (c : M A) (k : A -> M B) :
  preserves R c -> (forall a, preserves R (k a)) -> preserves R (c ≫= k).
Proof.
  intros Hc Hk s. unfold mbind, M_bind, bind.
  specialize (Hc s). destruct (c s) as [[e|a] s1]; cbn in Hc |- *; [exact Hc|].
  etransitivity; [exact Hc | apply Hk].
Qed.

Lemma preserves_try (c : M unit) :
  preserves R c -> preserves R (try_except_IndexError c).
Proof.
  intros Hc s. unfold try_except_IndexError.
  specialize (Hc s). destruct (c s) as [[[]|[]] s1]; exact Hc.
Qed.
End Preserves.

#[global] Instance same_message_preorder : PreOrder same_message.
Proof.
  split.
  - intros s. unfold same_message. auto.
  - intros s1 s2 s3 (Hm1 & Hq1 & Hf1) (Hm2 & Hq2 & Hf2). unfold same_message.
    repeat split; congruence.
Qed.

Lemma message_emit (e : event) : preserves same_message (emit e).
Proof. intros s. unfold same_message. cbn. auto. Qed.

Lemma message_edit (on : target) (kwargs : gmap string pyval) :
  preserves same_message (edit on kwargs).
Proof.
  intros s. unfold same_message, edit.
  destruct (clashes ["view"] kwargs); cbn; auto.
Qed.

Lemma message_assign_disabled (b : button) (x : bool) :
  b <> Quit -> preserves same_message (assign_disabled b x).
Proof. intros Hb s. unfold same_message. destruct b; cbn; auto. contradiction. Qed.

Lemma message_set_current_page (n : Z) :
  preserves same_message (modify (set_current_page n)).
Proof. intros s. unfold same_message. cbn. auto. Qed.

Create HintDb message.
#[local] Hint Resolve preserves_ret preserves_pass preserves_raise preserves_lift
  preserves_get preserves_try message_emit message_edit message_set_current_page
  : message.
#[local] Hint Extern 1 (preserves same_message (assign_disabled _ _)) =>
  apply message_assign_disabled; discriminate : message.

(** Walks through a method as [keeps] does, for [same_message]. *)
Ltac walk :=
  repeat first
    [ solve [auto with message typeclass_instances]
    | match goal with
      | |- preserves _ (if ?b then _ else _) => destruct b
      | |- preserves _ (match ?x with _ => _ end) => destruct x
      end
    | apply preserves_bind; try exact _; [|intros ?] ].

Section Untouched.
Context {page : Type} (source : PageSource page) (f : file).

Lemma message_update_labels (p : Z) :
  preserves same_message (_update_labels source f p).
Proof.
  unfold _update_labels, PaginationPy._update_labels, MainPy._update_labels.
  destruct f; walk.
Qed.

Lemma message_show_page (i : press) (n : Z) :
  preserves same_message (show_page source f i n).
Proof.
  pose proof message_update_labels.
  unfold show_page, _get_kwargs_from_page. walk.
Qed.

Lemma message_show_checked_page (i : press) (n : Z) :
  preserves same_message (show_checked_page source f i n).
Proof.
  pose proof message_show_page.
  unfold show_checked_page. cbv zeta. apply preserves_try; try exact _. walk.
Qed.

Lemma message_callback (b : button) (i : press) :
  b <> Quit -> preserves same_message (callback source f b i).
Proof.
  intros Hb.
  pose proof message_show_page. pose proof message_show_checked_page.
  destruct b; try contradiction; cbn [callback];
    unfold go_to_first_page, go_to_previous_page, go_to_next_page,
           go_to_last_page; walk.
Qed.

Lemma keeps_callback (b : button) (i : press) :
  keeps_setup (callback source f b i).
Proof.
  destruct (keeps_buttons source f i) as (Hfirst & Hprev & Hnext & Hlast).
  destruct b; cbn [callback]; auto using keeps_stop_pages.
Qed.
End Untouched.

(** ** Any sequence of button presses *)

Section Presses.
Context {page : Type} (source : PageSource page) (f : file).

(** [show_page] ends on the requested page or, when the source refuses it,
    on the page it started from. *)
Lemma show_page_page (i : press) (n : Z) (s : session) :
  current_page (snd (show_page source f i n s)) = n \/
  current_page (snd (show_page source f i n s)) = current_page s.
Proof.
  destruct (get_page source n) as [e|pg] eqn:Hpg.
  - right. rewrite (show_page_refused source f i n s e Hpg). reflexivity.
  - left. eapply show_page_jumps. exact Hpg.
Qed.

Lemma show_checked_page_page (i : press) (n : Z) (s : session) (max_pages : Z) :
  get_max_pages source = Some max_pages ->
  current_page (snd (show_checked_page source f i n s)) = current_page s \/
  (current_page (snd (show_checked_page source f i n s)) = n /\ 0 <= n < max_pages).
Proof.
  intros Hmax. unfold show_checked_page. rewrite Hmax, try_except_current_page.
  destruct (Z.gtb_spec max_pages n), (Z.geb_spec n 0); cbn; auto.
  destruct (show_page_page i n s) as [Hn|Hs]; [right | left]; auto with lia.
Qed.

Lemma callback_in_range (b : button) (i : press) (s : session) (max_pages : Z) :
  get_max_pages source = Some max_pages ->
  1 <= max_pages ->
  0 <= current_page s < max_pages ->
  0 <= current_page (snd (callback source f b i s)) < max_pages.
Proof.
  intros Hmax Hone Hin.
  destruct b; cbn [callback];
    unfold go_to_first_page, go_to_previous_page, go_to_next_page,
           go_to_last_page, stop_pages.
  - destruct (show_page_page i 0 s) as [-> | ->]; lia.
  - run. destruct (show_checked_page_page i (current_page s - 1) s max_pages Hmax)
      as [-> | [-> ?]]; lia.
  - run. cbn. exact Hin.
  - run. destruct (show_checked_page_page i (current_page s + 1) s max_pages Hmax)
      as [-> | [-> ?]]; lia.
  - rewrite Hmax.
    destruct (show_page_page i (max_pages - 1) s) as [-> | ->]; lia.
Qed.

Lemma stop_pages_run (i : press) (s : session) :
  stop_pages i s = (inr tt, set_finished true (record DeleteOriginal (record Defer s))).
Proof. reflexivity. Qed.
End Presses.

(** X5: With a known page count of at least one page, no sequence of button
    presses takes the current page out of [0, max_pages - 1]: First and Last
    jump to the two ends, Previous and Next are guarded, Quit does not move. *)
Theorem pressed_in_range {page : Type} (source : PageSource page) (f : file)
    (presses : list (button * press)) (s : session) (max_pages : Z) :
  get_max_pages source = Some max_pages ->
  1 <= max_pages ->
  0 <= current_page s < max_pages ->
  0 <= current_page (pressed source f presses s) < max_pages.
Proof.
  intros Hmax Hone. revert s.
  induction presses as [|[b i] rest IH]; intros s Hin; cbn [pressed].
  - exact Hin.
  - apply IH. apply callback_in_range; assumption.
Qed.

Lemma pressed_in_range_witness :
  let view := PaginationView counted_source (ctx true) true false in
  0 <= current_page
         (pressed counted_source main_py
            [(Next, click 42); (Next, click 42); (Next, click 42); (Last, click 42);
             (Previous, click 42); (First, click 42); (Previous, click 42)] view) < 3.
Proof.
  intros view.
  apply (pressed_in_range counted_source main_py _ view 3); [reflexivity | lia | cbn; lia].
Defined.

(** X6: No sequence of button presses changes what the view was built with (the
    invoking interaction, the two options, the attached buttons), the recorded
    message or the flag of Quit; and the view is finished afterwards iff it
    was before or Quit was among the presses. *)
Theorem pressed_untouched {page : Type} (source : PageSource page) (f : file)
    (presses : list (button * press)) (s : session) :
  let s' := pressed source f presses s in
  interaction s' = interaction s /\
  check_embeds s' = check_embeds s /\
  compact s' = compact s /\
  children s' = children s /\
  message s' = message s /\
  quit_disabled (disabled s') = quit_disabled (disabled s) /\
  finished s' = finished s || bool_decide (Quit ∈ fst <$> presses).
Proof.
  cbv zeta. revert s.
  induction presses as [|[b i] rest IH]; intros s; cbn [pressed].
  - rewrite orb_false_r. repeat split.
  - specialize (IH (snd (callback source f b i s))).
    destruct IH as (Hint & Hchk & Hcmp & Hch & Hmsg & Hq & Hfin).
    destruct (keeps_callback source f b i s) as (Kint & Kchk & Kcmp & Kch).
    rewrite Hint, Hchk, Hcmp, Hch, Hmsg, Hq, Hfin, Kint, Kchk, Kcmp, Kch.
    rewrite fmap_cons. cbn [fst].
    destruct (decide (b = Quit)) as [->|Hb].
    + cbn [callback]. rewrite stop_pages_run. cbn.
      rewrite bool_decide_eq_true_2 by left.
      rewrite orb_true_r. repeat split.
    + destruct (message_callback source f b i Hb s) as (Mmsg & Mq & Mfin).
      rewrite Mmsg, Mq, Mfin.
      repeat split. f_equal. apply bool_decide_ext.
      rewrite elem_of_cons. intuition congruence.
Qed.

(** ** One page change *)

Section PageChange.
Context {page : Type} (source : PageSource page) (f : file).

(** The labels, where they succeed: the flags meet the policy, Quit keeps its
    flag, nothing else moves. *)
Lemma update_labels_run (p : Z) (s : session) :
  is_Some (get_max_pages source) \/ compact s = true ->
  exists c,
    _update_labels source f p s = (inr tt, set_controls c s) /\
    enablement_policy p (get_max_pages source) (compact s) c /\
    quit_disabled c = quit_disabled (disabled s).
Proof.
  intros Hok.
  destruct (update_labels_policy source f p s Hok) as (s' & Hrun & Hpol).
  pose proof (update_labels_frame source f p s) as Hframe.
  pose proof (message_update_labels source f p s) as (_ & Hquit & _).
  rewrite Hrun in Hframe, Hquit. cbn in Hframe, Hquit.
  exists (disabled s'). rewrite <- Hframe. auto.
Qed.

Lemma show_page_run (i : press) (n : Z) (s s1 : session) (pg : page) (v : formatted) :
  get_page source n = inr pg ->
  format_page source pg = inr v ->
  _update_labels source f n (set_current_page n s) = (inr tt, s1) ->
  show_page source f i n s =
    if decide (kwargs_of v = ∅) then (inr tt, s1)
    else if response_done i then
      match message s1 with
      | Some h => edit (OnMessage h) (kwargs_of v) s1
      | None => (inr tt, s1)
      end
    else edit OnResponse (kwargs_of v) s1.
Proof.
  intros Hpg Hv Hlab. unfold show_page, _get_kwargs_from_page. run.
  rewrite Hpg, Hv, Hlab.
  destruct (decide (kwargs_of v = ∅)); [reflexivity|].
  destruct (response_done i); [|reflexivity].
  destruct (message s1); reflexivity.
Qed.
End PageChange.



(** X3: A page change that shows nothing.  Where the labels can be set (the
    page count is known or the view is compact): when the formatted page gives no
    kwargs (a dict that is empty, or a value that is neither dict, str nor
    Embed), or when the response of the press is used up and no message is
    recorded, [show_page] still moves the current page and sets the flags, and
    sends no edit: the message on screen keeps the old page. *)
Theorem show_page_silent {page : Type} (source : PageSource page) (f : file)
    (i : press) (n : Z) (s : session) (pg : page) (v : formatted) :
  get_page source n = inr pg ->
  format_page source pg = inr v ->
  is_Some (get_max_pages source) \/ compact s = true ->
  kwargs_of v = ∅ \/ (response_done i = true /\ message s = None) ->
  exists s',
    show_page source f i n s = (inr tt, s') /\
    current_page s' = n /\
    enablement_policy n (get_max_pages source) (compact s) (disabled s') /\
    outbox s' = outbox s.
Proof.
  intros Hpg Hv Hok Hsilent.
  destruct (update_labels_run source f n (set_current_page n s) Hok)
    as (c & Hlab & Hpol & _).
  rewrite (show_page_run source f i n s _ pg v Hpg Hv Hlab).
  destruct Hsilent as [Hkw | [Hdone Hmsg]].
  - rewrite decide_True by exact Hkw.
    eexists. split; [reflexivity|]. cbn.
    split; [reflexivity|]. split; [exact Hpol | reflexivity].
  - destruct (decide (kwargs_of v = ∅));
      [|rewrite Hdone; cbn; rewrite Hmsg];
      (eexists; split; [reflexivity|]; cbn;
       split; [reflexivity|]; split; [exact Hpol | reflexivity]).
Qed.

Lemma show_page_silent_witness :
  let view := PaginationView blank_source (ctx true) true false in
  exists s',
    show_page blank_source main_py (click 42) 5 view = (inr tt, s') /\
    current_page s' = 5 /\
    enablement_policy 5 (Some 1) false (disabled s') /\
    outbox s' = [].
Proof.
  intros view.
  apply (show_page_silent blank_source main_py (click 42) 5 view tt FOther);
    [reflexivity | reflexivity | left; exists 1; reflexivity | left; reflexivity].
Defined.

(** X4: A page that loads and then fails to format.  [show_page] has stored the
    page number by then: it raises with the current page already moved, and
    with flags and outbox as they were.  Under [show_checked_page] an
    [IndexError] from the formatter is swallowed like one from the source, so
    the call returns normally and the session is on the new page with nothing
    shown; any other exception comes out. *)
Theorem show_page_format_failure {page : Type} (source : PageSource page) (f : file)
    (i : press) (n : Z) (s : session) (pg : page) (e : exn) :
  get_page source n = inr pg ->
  format_page source pg = inl e ->
  show_page source f i n s = (inl e, set_current_page n s) /\
  (match get_max_pages source with
   | Some max_pages => 0 <= n < max_pages
   | None => True
   end ->
   show_checked_page source f i n s =
     (match e with IndexError => inr tt | _ => inl e end, set_current_page n s)).
Proof.
  intros Hpg Hv.
  assert (show_page source f i n s = (inl e, set_current_page n s)) as Hshow.
  { unfold show_page, _get_kwargs_from_page. run. rewrite Hpg, Hv. reflexivity. }
  split; [exact Hshow|].
  intros Hin. unfold show_checked_page, try_except_IndexError.
  destruct (get_max_pages source) as [m|].
  - assert ((m >? n) && (n >=? 0) = true) as -> by lia.
    rewrite Hshow. destruct e; reflexivity.
  - rewrite Hshow. destruct e; reflexivity.
Qed.

Lemma show_page_format_failure_witness :
  let view := PaginationView brittle_source (ctx true) true false in
  show_page brittle_source main_py (click 42) 2 view
    = (inl IndexError, set_current_page 2 view) /\
  show_checked_page brittle_source main_py (click 42) 2 view
    = (inr tt, set_current_page 2 view).
Proof.
  intros view.
  pose proof (show_page_format_failure brittle_source main_py (click 42) 2 view
                "three" IndexError eq_refl eq_refl) as [Hshow Hchecked].
  split; [exact Hshow | apply Hchecked; cbn; lia].
Defined.

(** ** What a button does to the current page *)

Section Steps.
Context {page : Type} (source : PageSource page) (f : file).

(** A guarded jump ends on the target or where it started, whether the page
    count is known or not. *)
Lemma show_checked_page_step (i : press) (n : Z) (s : session) :
  current_page (snd (show_checked_page source f i n s)) = n \/
  current_page (snd (show_checked_page source f i n s)) = current_page s.
Proof.
  unfold show_checked_page. rewrite try_except_current_page.
  destruct (get_max_pages source) as [m|]; [|apply show_page_page].
  destruct ((m >? n) && (n >=? 0)); [apply show_page_page | right; reflexivity].
Qed.

(** A guarded jump to a page in range that the source hands over arrives. *)
Lemma show_checked_page_arrives (i : press) (n : Z) (s : session)
    (max_pages : Z) (pg : page) :
  get_max_pages source = Some max_pages ->
  0 <= n < max_pages ->
  get_page source n = inr pg ->
  current_page (snd (show_checked_page source f i n s)) = n.
Proof.
  intros Hmax Hin Hpg. unfold show_checked_page.
  rewrite Hmax, try_except_current_page.
  assert ((max_pages >? n) && (n >=? 0) = true) as -> by lia.
  eapply show_page_jumps. exact Hpg.
Qed.

Lemma show_checked_page_outside (i : press) (n : Z) (s : session) (max_pages : Z) :
  get_max_pages source = Some max_pages ->
  ~ (0 <= n < max_pages) ->
  show_checked_page source f i n s = (inr tt, s).
Proof.
  intros Hmax Hout. unfold show_checked_page. rewrite Hmax.
  destruct (Z.gtb_spec max_pages n), (Z.geb_spec n 0); cbn; try reflexivity; lia.
Qed.
End Steps.

(** X7: Previous and Next move by one page or not at all, First goes to page 0
    or nowhere, Quit does not move, whatever the source.  With a known page
    count Last goes to the last page or nowhere, a press of Previous on page
    0 and a press of Next on the last page leave the whole session as it was;
    with an unknown page count Last raises [TypeError] and leaves the session
    as it was. *)
Theorem buttons_step {page : Type} (source : PageSource page) (f : file)
    (i : press) (s : session) :
  let after b := current_page (snd (callback source f b i s)) in
  (after Previous = current_page s - 1 \/ after Previous = current_page s) /\
  (after Next = current_page s + 1 \/ after Next = current_page s) /\
  (after First = 0 \/ after First = current_page s) /\
  after Quit = current_page s /\
  (forall max_pages, get_max_pages source = Some max_pages ->
     (after Last = max_pages - 1 \/ after Last = current_page s) /\
     (current_page s <= 0 -> callback source f Previous i s = (inr tt, s)) /\
     (current_page s + 1 >= max_pages -> callback source f Next i s = (inr tt, s))) /\
  (get_max_pages source = None -> callback source f Last i s = (inl TypeError, s)).
Proof.
  cbv zeta. cbn [callback].
  unfold go_to_first_page, go_to_previous_page, go_to_next_page, go_to_last_page.
  run.
  split; [apply show_checked_page_step|].
  split; [apply show_checked_page_step|].
  split; [apply show_page_page|].
  split; [reflexivity|].
  split.
  - intros m Hmax. rewrite Hmax.
    split; [apply show_page_page|].
    split; intros Hend; apply (show_checked_page_outside source f i _ s m Hmax); lia.
  - intros Hmax. rewrite Hmax. reflexivity.
Qed.

Lemma buttons_step_witness :
  let view := PaginationView counted_source (ctx true) true false in
  let last := set_current_page 2 view in
  callback counted_source pagination_py Previous (click 42) view = (inr tt, view) /\
  callback counted_source pagination_py Next (click 42) last = (inr tt, last) /\
  callback lazy_source pagination_py Last (click 42) view = (inl TypeError, view).
Proof.
  intros view last. split; [|split].
  - apply (proj1 (proj2 (proj1 (proj2 (proj2 (proj2 (proj2
             (buttons_step counted_source pagination_py (click 42) view)))))
             3 eq_refl))).
    cbn. lia.
  - apply (proj2 (proj2 (proj1 (proj2 (proj2 (proj2 (proj2
             (buttons_step counted_source pagination_py (click 42) last)))))
             3 eq_refl))).
    cbn. lia.
  - apply (proj2 (proj2 (proj2 (proj2 (proj2
             (buttons_step lazy_source pagination_py (click 42) view)))))).
    reflexivity.
Defined.

(** X8: Next and then Previous come back to the page they left, when the page
    count is known, the page left is not the last one, and the source hands
    over both pages. *)
Theorem next_previous_round_trip {page : Type} (source : PageSource page) (f : file)
    (i i' : press) (s : session) (max_pages : Z) (here there : page) :
  get_max_pages source = Some max_pages ->
  0 <= current_page s ->
  current_page s + 1 < max_pages ->
  get_page source (current_page s) = inr here ->
  get_page source (current_page s + 1) = inr there ->
  current_page (snd (callback source f Next i s)) = current_page s + 1 /\
  current_page (pressed source f [(Next, i); (Previous, i')] s) = current_page s.
Proof.
  intros Hmax Hlow Hhigh Hhere Hthere.
  assert (current_page (snd (callback source f Next i s)) = current_page s + 1) as Hnext.
  { cbn [callback]. unfold go_to_next_page. run.
    eapply show_checked_page_arrives; [exact Hmax | lia | exact Hthere]. }
  split; [exact Hnext|].
  cbn [pressed]. set (s1 := snd (callback source f Next i s)) in *.
  cbn [callback]. unfold go_to_previous_page. run.
  assert (current_page s1 - 1 = current_page s) as Hback by lia.
  transitivity (current_page s1 - 1); [|exact Hback].
  eapply show_checked_page_arrives; [exact Hmax | lia | rewrite Hback; exact Hhere].
Qed.

Lemma next_previous_round_trip_witness :
  let view := PaginationView counted_source (ctx true) true false in
  current_page (snd (callback counted_source main_py Next (click 42) view)) = 1 /\
  current_page (pressed counted_source main_py
                  [(Next, click 42); (Previous, click 42)] view) = 0.
Proof.
  intros view.
  apply (next_previous_round_trip counted_source main_py (click 42) (click 42) view 3
           "one" "two"); [reflexivity | cbn; lia | cbn; lia | reflexivity | reflexivity].
Defined.

(** ** More on [start] *)

(** X9: A first page that does not load or does not format.  Unless the
    permission test has already ended the call (an Interaction without the
    permission), [start] raises the exception of the source: the source has
    been prepared, nothing has been posted, and the session is otherwise as
    it was, so no live message is recorded.  From a Context without the
    permission the denial is then all that was sent. *)
Theorem start_first_page_fails {page : Type} (source : PageSource page) (f : file)
    (content : option string) (ephemeral : bool) (s : session) (e : exn) :
  get_page source 0 = inl e \/
  (exists pg, get_page source 0 = inr pg /\ format_page source pg = inl e) ->
  check_embeds s && negb (embed_links (interaction s)) = false \/
  kind (interaction s) = Context ->
  start source f content ephemeral s =
    (inl e,
     record PrepareOnce
       (if check_embeds s && negb (embed_links (interaction s))
        then record (Notice ViaSend "Missing embed permissions.") s
        else s)).
Proof.
  intros Hfail Hpath.
  assert (forall s0, start_page source f content ephemeral s0 = (inl e, record PrepareOnce s0))
    as Hbody.
  { intros s0. unfold start_page, _get_kwargs_from_page. run.
    destruct Hfail as [Hpg | (pg & Hpg & Hv)]; rewrite Hpg; [reflexivity|].
    rewrite Hv. reflexivity. }
  unfold start. run.
  destruct (check_embeds s && negb (embed_links (interaction s))) eqn:Hdenied.
  - destruct Hpath as [? | Hkind]; [discriminate|]. rewrite Hkind. cbn. apply Hbody.
  - apply Hbody.
Qed.

Lemma start_first_page_fails_witness :
  let view := PaginationView empty_source (ctx false) true false in
  start empty_source main_py (Some "hi") false view =
    (inl IndexError,
     record PrepareOnce (record (Notice ViaSend "Missing embed permissions.") view)).
Proof.
  intros view.
  apply (start_first_page_fails empty_source main_py (Some "hi") false view IndexError);
    [left; reflexivity | right; reflexivity].
Defined.

(** X10: A start that goes through: the permission test passes, page 0
    loads and formats, the labels can be set, and the kwargs hold none of the
    keywords the send names itself.  The flags are then those of the policy
    for page 0, the post carries the formatted first page with the extra
    content applied, and the message recorded as the live one is that post;
    the view goes with the post, under the new flags, except on the follow-up
    of an Interaction that was answered before.  [start] does not assign the
    current page: it shows page 0 whatever [current_page] holds. *)
Theorem start_shows_first_page {page : Type} (source : PageSource page) (f : file)
    (content : option string) (ephemeral : bool) (s : session)
    (pg : page) (v : formatted) :
  check_embeds s && negb (embed_links (interaction s)) = false ->
  get_page source 0 = inr pg ->
  format_page source pg = inr v ->
  is_Some (get_max_pages source) \/ compact s = true ->
  clashes (named_by_send (via_of s)) (kwargs_of v) = false ->
  exists s',
    start source f content ephemeral s = (inr tt, s') /\
    enablement_policy 0 (get_max_pages source) (compact s) (disabled s') /\
    current_page s' = current_page s /\
    children s' = children s /\
    let shown := map (fun b => (b, is_disabled b (disabled s'))) (children s) in
    let posted :=
      match kind (interaction s), responded s with
      | Context, _ =>
          Post ViaSend (with_content content (kwargs_of v)) (Some shown) ephemeral
      | Interaction, false =>
          Post ViaResponse (with_content content (kwargs_of v)) (Some shown) ephemeral
      | Interaction, true =>
          Post ViaFollowup (with_content content (kwargs_of v)) None ephemeral
      end in
    outbox s' = outbox s ++ [PrepareOnce; posted] /\
    exists h, message s' = Some h /\ outbox s' !! h = Some posted.
Proof.
  intros Hperm Hpg Hv Hok Hclash.
  unfold start. run. rewrite Hperm.
  destruct (update_labels_run source f 0 (record PrepareOnce s) Hok)
    as (c & Hlab & Hpol & _).
  rewrite (start_page_run source f content ephemeral s _ pg v Hpg Hv Hlab), Hclash.
  assert (forall e : event,
            (outbox s ++ [PrepareOnce; e]) !! length (outbox s ++ [PrepareOnce]) = Some e)
    as Hlook.
  { intros e. rewrite (lookup_app_r (outbox s)) by (rewrite length_app; lia).
    rewrite length_app. replace (length (outbox s) + length [PrepareOnce]
                                 - length (outbox s))%nat with 1%nat by (cbn; lia).
    reflexivity. }
  unfold via_of in *.
  destruct (kind (interaction s)); [|destruct (responded s)];
    (eexists; split; [reflexivity|]; cbn;
     split; [exact Hpol|]; split; [reflexivity|]; split; [reflexivity|];
     rewrite <- app_assoc; split; [reflexivity|];
     eexists; split; [reflexivity|]; apply Hlook).
Qed.

Lemma start_shows_first_page_witness :
  let view := PaginationView counted_source slash_deferred true true in
  exists s',
    start counted_source main_py (Some "hi") true view = (inr tt, s') /\
    enablement_policy 0 (Some 3) true (disabled s') /\
    current_page s' = 0 /\
    children s' = [Previous; Quit; Next] /\
    outbox s' =
      [ PrepareOnce;
        Post ViaFollowup {[ "content" := VStr "one"; "embed" := VNone ]} None true ] /\
    exists h, message s' = Some h /\
      outbox s' !! h =
        Some (Post ViaFollowup {[ "content" := VStr "one"; "embed" := VNone ]} None true).
Proof.
  intros view.
  apply (start_shows_first_page counted_source main_py (Some "hi") true view "one"
           (FStr "one"));
    [reflexivity | reflexivity | reflexivity | left; exists 3; reflexivity | reflexivity].
Defined.

(** ** The two files side by side *)

Section Files.
Context {page : Type} (source : PageSource page).

Lemma show_page_agree (i : press) (n : Z) (s : session) :
  is_Some (get_max_pages source) \/ compact s = true ->
  show_page source pagination_py i n s = show_page source main_py i n s.
Proof.
  intros Hok. unfold show_page, _get_kwargs_from_page. run.
  destruct (get_page source n) as [e|pg]; [reflexivity|].
  destruct (format_page source pg) as [e|v]; [reflexivity|].
  rewrite (update_labels_agree source n (set_current_page n s) Hok). reflexivity.
Qed.

Lemma show_checked_page_agree (i : press) (n : Z) (s : session) :
  is_Some (get_max_pages source) \/ compact s = true ->
  show_checked_page source pagination_py i n s = show_checked_page source main_py i n s.
Proof.
  intros Hok. unfold show_checked_page, try_except_IndexError.
  destruct (get_max_pages source) as [m|] eqn:Hmax.
  - destruct ((m >? n) && (n >=? 0)); [|reflexivity].
    rewrite show_page_agree; [reflexivity | rewrite Hmax; exact Hok].
  - rewrite show_page_agree; [reflexivity | rewrite Hmax; exact Hok].
Qed.

Lemma callback_agree (b : button) (i : press) (s : session) :
  is_Some (get_max_pages source) \/ compact s = true ->
  callback source pagination_py b i s = callback source main_py b i s.
Proof.
  intros Hok. destruct b; cbn [callback];
    unfold go_to_first_page, go_to_previous_page, go_to_next_page, go_to_last_page;
    run.
  - apply show_page_agree. exact Hok.
  - apply show_checked_page_agree. exact Hok.
  - reflexivity.
  - apply show_checked_page_agree. exact Hok.
  - destruct (get_max_pages source) as [m|] eqn:Hmax; [|reflexivity].
    apply show_page_agree. rewrite Hmax. exact Hok.
Qed.

Lemma start_agree (content : option string) (ephemeral : bool) (s : session) :
  is_Some (get_max_pages source) \/ compact s = true ->
  start source pagination_py content ephemeral s = start source main_py content ephemeral s.
Proof.
  intros Hok.
  assert (forall s0, compact s0 = compact s ->
            start_page source pagination_py content ephemeral s0 =
            start_page source main_py content ephemeral s0) as Hbody.
  { intros s0 Hc. unfold start_page, _get_kwargs_from_page. run.
    destruct (get_page source 0) as [e|pg]; [reflexivity|].
    destruct (format_page source pg) as [e|v]; [reflexivity|].
    rewrite (update_labels_agree source 0 (record PrepareOnce s0));
      [reflexivity | cbn; rewrite Hc; exact Hok]. }
  unfold start. run.
  destruct (check_embeds s && negb (embed_links (interaction s)));
    [destruct (kind (interaction s)); [|reflexivity] |]; cbn; apply Hbody; reflexivity.
Qed.
End Files.

(** X11: Where the page count is known, or the view is compact, the methods
    of the two copies of the class compute the same: [start], every page
    change and every sequence of button presses give the same outcome, the
    same session, and the same calls with the same kwargs and the same
    disabled flags on the buttons sent along, in [src/pagination.py] and in
    [src/main.py].  The decoration of the buttons (label, emoji, style), which
    the decorators fix and which differs between the files, is not part of
    the comparison. *)
Theorem files_agree {page : Type} (source : PageSource page) (s : session) :
  is_Some (get_max_pages source) \/ compact s = true ->
  (forall content ephemeral,
     start source pagination_py content ephemeral s =
     start source main_py content ephemeral s) /\
  (forall i n,
     show_page source pagination_py i n s = show_page source main_py i n s /\
     show_checked_page source pagination_py i n s =
     show_checked_page source main_py i n s) /\
  (forall presses,
     pressed source pagination_py presses s = pressed source main_py presses s).
Proof.
  intros Hok. split; [|split].
  - intros content ephemeral. apply start_agree. exact Hok.
  - intros i n. split; [apply show_page_agree | apply show_checked_page_agree]; exact Hok.
  - intros presses. revert s Hok.
    induction presses as [|[b i] rest IH]; intros s Hok; cbn [pressed]; [reflexivity|].
    rewrite (callback_agree source b i s Hok). apply IH.
    destruct (keeps_callback source main_py b i s) as (_ & _ & Hc & _).
    rewrite Hc. exact Hok.
Qed.

Lemma files_agree_witness :
  let view := PaginationView lazy_source (ctx true) true true in
  start lazy_source pagination_py None false view = start lazy_source main_py None false view /\
  pressed lazy_source pagination_py [(Next, click 42); (Next, click 42)] view =
  pressed lazy_source main_py [(Next, click 42); (Next, click 42)] view.
Proof.
  intros view.
  pose proof (files_agree lazy_source view (or_intror eq_refl)) as (Hstart & _ & Hpressed).
  split; [apply Hstart | apply Hpressed].
Defined.

(** ** Building the view *)

(** X1: [__init__] attaches no button twice and no button at all to a source that
    does not paginate; for one that does, the buttons come in the order First,
    Previous, Quit, Next, Last, without First and Last when the view is
    compact.  The view starts on page 0 with every button enabled, no message
    and nothing sent. *)
Theorem attached_buttons {page : Type} (source : PageSource page)
    (inv : invocation) (check compact_mode : bool) :
  let view := PaginationView source inv check compact_mode in
  NoDup (children view) /\
  children view =
    (if is_paginating source
     then filter (fun b => compact_mode = false \/ (b <> First /\ b <> Last))
                 [First; Previous; Quit; Next; Last]
     else []) /\
  (Quit ∈ children view <-> is_paginating source = true) /\
  (forall b, is_disabled b (disabled view) = false) /\
  current_page view = 0 /\
  message view = None /\
  finished view = false /\
  outbox view = [].
Proof.
  cbv zeta. unfold PaginationView, fill_items, clear_items, add_item.
  destruct (is_paginating source), compact_mode; cbn;
    (split; [apply (bool_decide_unpack _); reflexivity|]);
    (split; [reflexivity|]);
    (split; [|split; [intros []; reflexivity | repeat split]]);
    rewrite ?elem_of_cons, ?elem_of_nil;
    split; intros H; auto; try discriminate H;
    repeat (destruct H as [H|H]; try discriminate H); contradiction.
Qed.

(** ** The extra content, as a map operation *)

(** X12: [start] adds the extra content with [setdefault]: no key but content is
    touched, a content that is already there stays, a missing or empty extra
    content changes nothing, and adding twice is adding once. *)
Theorem with_content_laws (content : option string) (kwargs : gmap string pyval) :
  (forall k, k <> "content" -> with_content content kwargs !! k = kwargs !! k) /\
  (is_Some (kwargs !! "content") -> with_content content kwargs = kwargs) /\
  (truthy content = false -> with_content content kwargs = kwargs) /\
  (truthy content = true -> is_Some (with_content content kwargs !! "content")) /\
  with_content content (with_content content kwargs) = with_content content kwargs.
Proof.
  assert (forall c kw, setdefault "content" (VStr c) (setdefault "content" (VStr c) kw)
                       = setdefault "content" (VStr c) kw) as Hidem.
  { intros c kw. unfold setdefault at 2 3.
    destruct (kw !! "content") eqn:Hkw.
    - unfold setdefault. rewrite Hkw. reflexivity.
    - unfold setdefault. rewrite lookup_insert_eq. reflexivity. }
  unfold with_content.
  destruct content as [c|]; [|repeat split; auto; discriminate].
  destruct (truthy (Some c)) eqn:Htruthy; [|repeat split; auto; discriminate].
  split; [|split; [|split; [|split]]].
  - intros k Hk. unfold setdefault.
    destruct (kwargs !! "content"); [reflexivity|]. apply lookup_insert_ne. congruence.
  - intros [x Hx]. unfold setdefault. rewrite Hx. reflexivity.
  - discriminate.
  - intros _. unfold setdefault.
    destruct (kwargs !! "content") eqn:Hkw; [rewrite Hkw; eauto|].
    rewrite lookup_insert_eq. eauto.
  - apply Hidem.
Qed.

Lemma with_content_laws_witness :
  with_content (Some "hi") {[ "content" := VNone ]} = {[ "content" := VNone ]} /\
  with_content (Some "") ∅ = ∅ /\
  with_content (Some "hi") {[ "embed" := VNone ]} !! "embed" = Some VNone.
Proof.
  split; [|split].
  - apply (proj1 (proj2 (with_content_laws (Some "hi") {[ "content" := VNone ]}))).
    exists VNone. reflexivity.
  - apply (proj1 (proj2 (proj2 (with_content_laws (Some "") ∅)))). reflexivity.
  - rewrite (proj1 (with_content_laws (Some "hi") {[ "embed" := VNone ]}) "embed");
      [reflexivity | discriminate].
Defined.

(** ** The embed of a page *)

Lemma has_colon_app (a b : string) :
  has_colon (a +:+ b) = has_colon a || has_colon b.
Proof.
  induction a as [|c a IH]; [reflexivity|].
  change (Ascii.eqb c ":" || has_colon (a +:+ b)
          = Ascii.eqb c ":" || has_colon a || has_colon b).
  rewrite IH. apply orb_assoc.
Qed.

Lemma has_colon_line (e : entry) : has_colon (GuildMenu.format_line e) = true.
Proof.
  unfold GuildMenu.format_line. rewrite has_colon_app.
  apply orb_true_iff. right. reflexivity.
Qed.

Lemma has_colon_lines (e : entry) (entries : list entry) :
  has_colon (String.concat (nl +:+ nl) (map GuildMenu.format_line (e :: entries))) = true.
Proof.
  cbn [map String.concat]. destruct (map GuildMenu.format_line entries).
  - apply has_colon_line.
  - change (has_colon (GuildMenu.format_line e +:+ ((nl +:+ nl) +:+
              String.concat (nl +:+ nl) (s :: l))) = true).
    rewrite has_colon_app, has_colon_line. reflexivity.
Qed.

(** X14: The embed of a page always has the title Server List and a description
    that is not empty.  The description is the text No guilds were found
    exactly for the empty slice: every line holds a colon, whatever the names
    are.  A slice of several entries is rendered as its first line, a blank
    line, and the rendering of the rest. *)
Theorem format_page_fallback (entries : list entry) :
  title (GuildMenu.format_page entries) = "Server List" /\
  description (GuildMenu.format_page entries) <> "" /\
  (description (GuildMenu.format_page entries) = "No guilds were found."
   <-> entries = []) /\
  (forall e e' rest, entries = e :: e' :: rest ->
     description (GuildMenu.format_page entries) =
       GuildMenu.format_line e +:+ nl +:+ nl +:+
       description (GuildMenu.format_page (e' :: rest))).
Proof.
  split; [reflexivity|]. rewrite format_page_description.
  split; [|split].
  - destruct entries as [|e entries]; [discriminate|].
    intros Hempty. pose proof (has_colon_lines e entries) as Hcolon.
    rewrite Hempty in Hcolon. discriminate.
  - destruct entries as [|e entries]; [tauto|].
    split; [|discriminate].
    intros Hfallback. pose proof (has_colon_lines e entries) as Hcolon.
    rewrite Hfallback in Hcolon. discriminate.
  - intros e e' rest ->. rewrite format_page_description. reflexivity.
Qed.

Lemma format_page_fallback_witness :
  description (GuildMenu.format_page [(alpha, Some "a"); (beta, None)]) =
    "Alpha: a" +:+ nl +:+ nl +:+ description (GuildMenu.format_page [(beta, None)]).
Proof.
  apply (proj2 (proj2 (proj2 (format_page_fallback [(alpha, Some "a"); (beta, None)])))
           (alpha, Some "a") (beta, None) []).
  reflexivity.
Defined.

(** ** A keyword given twice *)

(** X15: A formatted dict that holds a keyword the call also gives by name
    makes the call raise [TypeError] before anything is sent.  With the
    keyword view in the kwargs, a page change that would edit raises after
    the current page has moved and the flags are set, and the outbox is as it
    was.  With a keyword of the send in the kwargs, [start] raises after the
    source is prepared and the flags are set: nothing is posted and no message
    is recorded. *)
Theorem keyword_clash {page : Type} (source : PageSource page) (f : file)
    (s : session) (pg : page) (v : formatted) :
  format_page source pg = inr v ->
  (forall i n,
     get_page source n = inr pg ->
     is_Some (kwargs_of v !! "view") ->
     is_Some (get_max_pages source) \/ compact s = true ->
     response_done i = false \/ is_Some (message s) ->
     exists s',
       show_page source f i n s = (inl TypeError, s') /\
       current_page s' = n /\
       enablement_policy n (get_max_pages source) (compact s) (disabled s') /\
       outbox s' = outbox s /\
       message s' = message s) /\
  (forall content ephemeral,
     get_page source 0 = inr pg ->
     clashes (named_by_send (via_of s)) (kwargs_of v) = true ->
     f = pagination_py \/ is_Some (get_max_pages source) \/ compact s = true ->
     check_embeds s && negb (embed_links (interaction s)) = false ->
     exists s',
       start source f content ephemeral s = (inl TypeError, s') /\
       outbox s' = outbox s ++ [PrepareOnce] /\
       message s' = message s /\
       current_page s' = current_page s).
Proof.
  intros Hv. split.
  - intros i n Hpg Hview Hok Hedit.
    destruct (update_labels_run source f n (set_current_page n s) Hok)
      as (c & Hlab & Hpol & _).
    rewrite (show_page_run source f i n s _ pg v Hpg Hv Hlab).
    assert (kwargs_of v <> ∅) as Hkw.
    { intros Hempty. rewrite Hempty, lookup_empty in Hview.
      destruct Hview as [x Hx]. discriminate. }
    rewrite decide_False by exact Hkw.
    destruct (response_done i) eqn:Hdone.
    + destruct Hedit as [? | [h Hmsg]]; [discriminate|].
      cbn [message set_controls set_current_page]. rewrite Hmsg.
      rewrite edit_clash by exact Hview.
      eexists. split; [reflexivity|]. cbn.
      split; [reflexivity|]. split; [exact Hpol|]. auto.
    + rewrite edit_clash by exact Hview.
      eexists. split; [reflexivity|]. cbn.
      split; [reflexivity|]. split; [exact Hpol|]. auto.
  - intros content ephemeral Hpg Hclash Hok Hperm.
    unfold start. run. rewrite Hperm.
    destruct (update_labels_returns source f 0 (record PrepareOnce s)) as (c & Hlab);
      [exact Hok|].
    rewrite (start_page_run source f content ephemeral s _ pg v Hpg Hv Hlab), Hclash.
    eexists. split; [reflexivity|]. cbn. auto.
Qed.

Lemma keyword_clash_witness :
  let view := PaginationView clashing_source (ctx true) true false in
  (exists s',
     show_page clashing_source main_py (click 42) 0 view = (inl TypeError, s') /\
     current_page s' = 0 /\
     enablement_policy 0 (Some 1) false (disabled s') /\
     outbox s' = [] /\
     message s' = None) /\
  (exists s',
     start clashing_source main_py None false view = (inl TypeError, s') /\
     outbox s' = [PrepareOnce] /\
     message s' = None /\
     current_page s' = 0).
Proof.
  intros view.
  pose proof (keyword_clash clashing_source main_py view tt
                (FDict {[ "view" := VNone ]}) eq_refl) as [Hshow Hstart].
  split.
  - apply (Hshow (click 42) 0);
      [reflexivity | exists VNone; reflexivity | left; exists 1; reflexivity
      | left; reflexivity].
  - apply (Hstart None false);
      [reflexivity | reflexivity | right; left; exists 1; reflexivity | reflexivity].
Defined.
